(** * eDrawings preview addon

    A shallow embedding of [native/src/edrawings_preview.cpp]: the
    [EDrawingsPreview] object wrapper (attach, load, resize, show, hide,
    destroy, query) and the module-level installation probe.

    The addon is a bridge between a JavaScript host and Win32/COM.  Both
    sides are outside the file, so they are modelled by what the code can
    observe of them:
    - a JavaScript argument is a [jsval]; a method ends in a [completion]
      which records the boolean it returns and the exception it scheduled;
    - every Win32 or COM entry point the code calls is a field of [Win32]
      (resp. [Machine]) giving the answer of the operating system, and
      every call is logged as an [event], in program order.
    Text is kept as [string]: the UTF-8/UTF-16 conversions done around the
    system calls do not change the text they carry and are not modelled. *)

From Stdlib Require Import ZArith List String Ascii Bool Lia.
From Stdlib.Strings Require Import Byte.
Import ListNotations.
Local Open Scope string_scope.
Local Open Scope list_scope.
Local Open Scope Z_scope.

(** ** Win32 and COM scalars *)

Definition HWND := Z.
Definition LPUNKNOWN := Z.
Definition LPDISPATCH := Z.
Definition HRESULT := Z.
Definition DISPID := Z.
Definition HKEY := Z.
Definition LSTATUS := Z.

Definition nullptr : Z := 0.
Definition S_OK : HRESULT := 0.
Definition S_FALSE : HRESULT := 1.
Definition E_NOINTERFACE : HRESULT := -2147467262.
Definition REGDB_E_CLASSNOTREG : HRESULT := -2147221164.
Definition ERROR_SUCCESS : LSTATUS := 0.
Definition ERROR_FILE_NOT_FOUND : LSTATUS := 2.
Definition SW_HIDE : Z := 0.
Definition SW_SHOW : Z := 5.

(** [SUCCEEDED(hr)] is [hr >= 0] and [FAILED(hr)] is [hr < 0]. *)
Definition SUCCEEDED (hr : HRESULT) : bool := 0 <=? hr.
Definition FAILED (hr : HRESULT) : bool := hr <? 0.

(** [!p] on a handle or an interface pointer. *)
Definition is_null (p : Z) : bool := p =? nullptr.

(** ** JavaScript values as N-API shows them *)

(** A JavaScript number, kept as its integer part; [NonFinite] stands for
    NaN and the two infinities. *)
Inductive jsnum :=
| NonFinite
| Finite (z : Z).

Inductive jsval :=
| JsUndefined
| JsNull
| JsBoolean (b : bool)
| JsNumber (n : jsnum)
| JsString (s : string)
| JsBuffer (data : list byte)
| JsObject.

(** [Napi::CallbackInfo]: the arguments of the call.  [info[i]] past the
    end is [undefined]. *)
Definition CallbackInfo := list jsval.

Definition arg (info : CallbackInfo) (i : nat) : jsval := nth i info JsUndefined.

Definition IsBuffer (v : jsval) : bool :=
  match v with JsBuffer _ => true | _ => false end.
Definition IsNumber (v : jsval) : bool :=
  match v with JsNumber _ => true | _ => false end.
Definition IsString (v : jsval) : bool :=
  match v with JsString _ => true | _ => false end.

(** The message N-API attaches to [napi_number_expected]. *)
Definition number_expected : string := "A number was expected".

(** [Napi::Number::Int64Value] on a number: non-finite values give 0, the
    others are brought into the range of [int64_t]. *)
Definition Int64Value (n : jsnum) : Z :=
  match n with
  | NonFinite => 0
  | Finite z => Z.max (- 2 ^ 63) (Z.min (2 ^ 63 - 1) z)
  end.

(** [As<Napi::Number>().Int32Value()]: the cast is unchecked, the
    conversion fails with [napi_number_expected] on anything but a number;
    on a number it keeps the low 32 bits, read as signed. *)
Definition Int32Value (v : jsval) : Z + string :=
  match v with
  | JsNumber NonFinite => inl 0
  | JsNumber (Finite z) => inl ((z + 2 ^ 31) mod 2 ^ 32 - 2 ^ 31)
  | _ => inr number_expected
  end.

Definition value_or_zero (c : Z + string) : Z :=
  match c with inl z => z | inr _ => 0 end.

(** [std::string::c_str()] handed to a C API: the text up to the first
    NUL character. *)
Fixpoint c_str (s : string) : string :=
  match s with
  | EmptyString => EmptyString
  | String c rest => if Ascii.eqb c zero then EmptyString else String c (c_str rest)
  end.

(** What is fixed when the addon is built: the size of a pointer and
    whether node-addon-api reports its own errors as C++ exceptions
    ([NAPI_CPP_EXCEPTIONS]) or as pending JavaScript exceptions. *)
Record build := {
  sizeof_HWND : nat;
  NAPI_CPP_EXCEPTIONS : bool
}.

(** [reinterpret_cast<HWND>(int64_t)]: the low bits that fit a pointer. *)
Definition hwnd_of_int64 (cfg : build) (v : Z) : HWND :=
  v mod 2 ^ (8 * Z.of_nat (sizeof_HWND cfg)).

(** [*reinterpret_cast<HWND*>(buf.Data())]: the first [sizeof(HWND)] bytes,
    least significant first. *)
Fixpoint le_bytes (bs : list byte) : Z :=
  match bs with
  | [] => 0
  | b :: rest => Z.of_N (Byte.to_N b) + 256 * le_bytes rest
  end.

Definition hwnd_of_buffer (cfg : build) (data : list byte) : HWND :=
  le_bytes (firstn (sizeof_HWND cfg) data).

(** How a method ends.  [Returns v None] is a plain return of
    [Napi::Boolean v]; [Returns v (Some msg)] is a return after
    [ThrowAsJavaScriptException], so the caller gets the exception and
    never sees [v]; [Unwinds msg] is a C++ [Napi::Error] leaving the
    method. *)
Inductive completion :=
| Returns (v : bool) (pending : option string)
| Unwinds (msg : string).

Inductive js_outcome :=
| JsReturn (v : bool)
| JsThrow (msg : string).

(** What the JavaScript caller gets. *)
Definition observed (c : completion) : js_outcome :=
  match c with
  | Returns v None => JsReturn v
  | Returns _ (Some msg) => JsThrow msg
  | Unwinds msg => JsThrow msg
  end.

(** The [bool] given to [Napi::Boolean::New] in the [return], if any. *)
Definition returned (c : completion) : option bool :=
  match c with
  | Returns v _ => Some v
  | Unwinds _ => None
  end.

(** ** The instance *)

Record EDrawingsPreview := {
  m_hwndParent : HWND;
  m_hwndContainer : HWND;
  m_pControl : LPUNKNOWN;
  m_pDispatch : LPDISPATCH;
  m_isAttached : bool;
  m_isFileLoaded : bool
}.

(** The default member initialisers. *)
Definition initial : EDrawingsPreview := {|
  m_hwndParent := nullptr;
  m_hwndContainer := nullptr;
  m_pControl := nullptr;
  m_pDispatch := nullptr;
  m_isAttached := false;
  m_isFileLoaded := false
|}.

Definition with_hwndParent (v : HWND) (s : EDrawingsPreview) :=
  {| m_hwndParent := v; m_hwndContainer := m_hwndContainer s;
     m_pControl := m_pControl s; m_pDispatch := m_pDispatch s;
     m_isAttached := m_isAttached s; m_isFileLoaded := m_isFileLoaded s |}.
Definition with_hwndContainer (v : HWND) (s : EDrawingsPreview) :=
  {| m_hwndParent := m_hwndParent s; m_hwndContainer := v;
     m_pControl := m_pControl s; m_pDispatch := m_pDispatch s;
     m_isAttached := m_isAttached s; m_isFileLoaded := m_isFileLoaded s |}.
Definition with_pControl (v : LPUNKNOWN) (s : EDrawingsPreview) :=
  {| m_hwndParent := m_hwndParent s; m_hwndContainer := m_hwndContainer s;
     m_pControl := v; m_pDispatch := m_pDispatch s;
     m_isAttached := m_isAttached s; m_isFileLoaded := m_isFileLoaded s |}.
Definition with_pDispatch (v : LPDISPATCH) (s : EDrawingsPreview) :=
  {| m_hwndParent := m_hwndParent s; m_hwndContainer := m_hwndContainer s;
     m_pControl := m_pControl s; m_pDispatch := v;
     m_isAttached := m_isAttached s; m_isFileLoaded := m_isFileLoaded s |}.
Definition with_isAttached (v : bool) (s : EDrawingsPreview) :=
  {| m_hwndParent := m_hwndParent s; m_hwndContainer := m_hwndContainer s;
     m_pControl := m_pControl s; m_pDispatch := m_pDispatch s;
     m_isAttached := v; m_isFileLoaded := m_isFileLoaded s |}.
Definition with_isFileLoaded (v : bool) (s : EDrawingsPreview) :=
  {| m_hwndParent := m_hwndParent s; m_hwndContainer := m_hwndContainer s;
     m_pControl := m_pControl s; m_pDispatch := m_pDispatch s;
     m_isAttached := m_isAttached s; m_isFileLoaded := v |}.

(** ** The operating system *)

(** Calls into Win32, COM and the registry, with what they answered. *)
Inductive event :=
| EvIsWindow (h : HWND) (alive : bool)
| EvRegisterClassExW
| EvCreateWindowExW (parent : HWND) (created : HWND)
| EvDestroyWindow (h : HWND)
| EvCoCreateInstance (hr : HRESULT) (ppv : LPUNKNOWN)
| EvQueryInterface (obj : LPUNKNOWN) (hr : HRESULT) (ppv : LPDISPATCH)
| EvRelease (p : Z)
| EvGetIDsOfNames (disp : LPDISPATCH) (name : string) (hr : HRESULT) (id : DISPID)
| EvInvoke (disp : LPDISPATCH) (id : DISPID) (bstr : string) (hr : HRESULT)
| EvSetWindowPos (h : HWND) (x y cx cy : Z) (ok : bool)
| EvShowWindow (h : HWND) (nCmdShow : Z)
| EvPathFileExistsW (p : string) (found : bool)
| EvRegOpenKeyExW (subkey : string) (status : LSTATUS) (hKey : HKEY)
| EvRegQueryValueExW (hKey : HKEY) (name : string) (status : LSTATUS)
| EvRegCloseKey (hKey : HKEY).

(** The answers of the system during one method call.  An out-parameter
    is given as the value found in it after the call. *)
Record Win32 := {
  IsWindow : HWND -> bool;
  CreateWindowExW : HWND -> HWND;
  CoCreateInstance : HRESULT * LPUNKNOWN;
  QueryInterface : LPUNKNOWN -> HRESULT * LPDISPATCH;
  GetIDsOfNames : LPDISPATCH -> string -> HRESULT * DISPID;
  Invoke : LPDISPATCH -> DISPID -> string -> HRESULT;
  SetWindowPos : HWND -> Z -> Z -> Z -> Z -> bool
}.

(** ** Methods: state and log threaded through *)

Definition M (A : Type) : Type :=
  EDrawingsPreview -> A * EDrawingsPreview * list event.

Definition ret {A} (a : A) : M A := fun s => (a, s, []).

Definition result_of {A} (r : A * EDrawingsPreview * list event) : A := fst (fst r).
Definition state_of {A} (r : A * EDrawingsPreview * list event) : EDrawingsPreview :=
  snd (fst r).
Definition log_of {A} (r : A * EDrawingsPreview * list event) : list event := snd r.

Definition bind {A B} (m : M A) (k : A -> M B) : M B :=
  fun s =>
    let '(a, s1, log1) := m s in
    let '(b, s2, log2) := k a s1 in
    (b, s2, log1 ++ log2).

Definition this : M EDrawingsPreview := fun s => (s, s, []).
Definition assign (f : EDrawingsPreview -> EDrawingsPreview) : M unit :=
  fun s => (tt, f s, []).
Definition sys (e : event) : M unit := fun s => (tt, s, [e]).

Notation "x <- m ;; k" := (bind m (fun x => k))
  (at level 61, m at next level, right associativity).
Notation "m ;; k" := (bind m (fun _ => k))
  (at level 61, right associativity).

Section Methods.

Variable cfg : build.
Variable os : Win32.

Definition CreateControl (parentHwnd : HWND) : M bool :=
  s <- this ;;
  if m_isAttached s then ret true else
  sys EvRegisterClassExW ;;
  let hwnd := CreateWindowExW os parentHwnd in
  sys (EvCreateWindowExW parentHwnd hwnd) ;;
  assign (with_hwndContainer hwnd) ;;
  if is_null hwnd then ret false else
  let hr := fst (CoCreateInstance os) in
  let pControl := snd (CoCreateInstance os) in
  sys (EvCoCreateInstance hr pControl) ;;
  assign (with_pControl pControl) ;;
  if FAILED hr || is_null pControl then
    sys (EvDestroyWindow hwnd) ;;
    assign (with_hwndContainer nullptr) ;;
    ret false
  else
  let hr := fst (QueryInterface os pControl) in
  let pDispatch := snd (QueryInterface os pControl) in
  sys (EvQueryInterface pControl hr pDispatch) ;;
  assign (with_pDispatch pDispatch) ;;
  if FAILED hr then
    sys (EvRelease pControl) ;;
    assign (with_pControl nullptr) ;;
    sys (EvDestroyWindow hwnd) ;;
    assign (with_hwndContainer nullptr) ;;
    ret false
  else
  assign (with_hwndParent parentHwnd) ;;
  assign (with_isAttached true) ;;
  ret true.

Definition DestroyControl : M unit :=
  s <- this ;;
  (if is_null (m_pDispatch s) then ret tt else
     sys (EvRelease (m_pDispatch s)) ;; assign (with_pDispatch nullptr)) ;;
  (if is_null (m_pControl s) then ret tt else
     sys (EvRelease (m_pControl s)) ;; assign (with_pControl nullptr)) ;;
  (if is_null (m_hwndContainer s) then ret tt else
     sys (EvDestroyWindow (m_hwndContainer s)) ;;
     assign (with_hwndContainer nullptr)) ;;
  assign (with_isAttached false) ;;
  assign (with_isFileLoaded false).

(** The handle read from [info[0]]: a buffer of at least [sizeof(HWND)]
    bytes or a number; anything else leaves [hwnd] null. *)
Definition hwnd_of_arg (v : jsval) : HWND :=
  match v with
  | JsBuffer data =>
      if (sizeof_HWND cfg <=? List.length data)%nat then hwnd_of_buffer cfg data
      else nullptr
  | JsNumber n => hwnd_of_int64 cfg (Int64Value n)
  | _ => nullptr
  end.

Definition AttachToWindow (info : CallbackInfo) : M completion :=
  if (List.length info <? 1)%nat then
    ret (Returns false (Some "Window handle (HWND as number) expected"))
  else
  let hwnd := hwnd_of_arg (arg info 0) in
  if is_null hwnd then ret (Returns false None) else
  sys (EvIsWindow hwnd (IsWindow os hwnd)) ;;
  if negb (IsWindow os hwnd) then ret (Returns false None) else
  ok <- CreateControl hwnd ;;
  ret (Returns ok None).

Definition LoadFile (info : CallbackInfo) : M completion :=
  s <- this ;;
  if negb (m_isAttached s) || is_null (m_pDispatch s) then
    ret (Returns false None)
  else
  if (List.length info <? 1)%nat || negb (IsString (arg info 0)) then
    ret (Returns false (Some "File path expected"))
  else
  let filePath := match arg info 0 with JsString p => p | _ => "" end in
  let bstrPath := c_str filePath in
  let hr := fst (GetIDsOfNames os (m_pDispatch s) "OpenDoc") in
  let dispid := snd (GetIDsOfNames os (m_pDispatch s) "OpenDoc") in
  sys (EvGetIDsOfNames (m_pDispatch s) "OpenDoc" hr dispid) ;;
  hr <- (if SUCCEEDED hr then
           let hr := Invoke os (m_pDispatch s) dispid bstrPath in
           sys (EvInvoke (m_pDispatch s) dispid bstrPath hr) ;;
           ret hr
         else ret hr) ;;
  assign (with_isFileLoaded (SUCCEEDED hr)) ;;
  ret (Returns (SUCCEEDED hr) None).

Definition SetBounds (info : CallbackInfo) : M completion :=
  s <- this ;;
  if is_null (m_hwndContainer s) then ret (Returns false None) else
  if (List.length info <? 4)%nat then
    ret (Returns false (Some "x, y, width, height expected"))
  else
  let x := Int32Value (arg info 0) in
  let y := Int32Value (arg info 1) in
  let width := Int32Value (arg info 2) in
  let height := Int32Value (arg info 3) in
  let reposition :=
    let x := value_or_zero x in
    let y := value_or_zero y in
    let cx := value_or_zero width in
    let cy := value_or_zero height in
    sys (EvSetWindowPos (m_hwndContainer s) x y cx cy
           (SetWindowPos os (m_hwndContainer s) x y cx cy)) in
  match x, y, width, height with
  | inl _, inl _, inl _, inl _ => reposition ;; ret (Returns true None)
  | _, _, _, _ =>
      if NAPI_CPP_EXCEPTIONS cfg then ret (Unwinds number_expected)
      else reposition ;; ret (Returns true (Some number_expected))
  end.

Definition Show : M completion :=
  s <- this ;;
  if negb (is_null (m_hwndContainer s)) then
    sys (EvShowWindow (m_hwndContainer s) SW_SHOW) ;;
    ret (Returns true None)
  else ret (Returns false None).

Definition Hide : M completion :=
  s <- this ;;
  if negb (is_null (m_hwndContainer s)) then
    sys (EvShowWindow (m_hwndContainer s) SW_HIDE) ;;
    ret (Returns true None)
  else ret (Returns false None).

Definition Destroy : M completion :=
  DestroyControl ;;
  ret (Returns true None).

Definition IsLoaded : M completion :=
  s <- this ;;
  ret (Returns (m_isFileLoaded s) None).

End Methods.

(** The constructor leaves the members at their initialisers and turns
    COM on once for the process: the second component is the new value of
    the global [g_comInitialized]. *)
Definition construct (g_comInitialized : bool) (CoInitializeEx : HRESULT)
  : EDrawingsPreview * bool :=
  (initial,
   if negb g_comInitialized then
     if SUCCEEDED CoInitializeEx || (CoInitializeEx =? S_FALSE) then true
     else g_comInitialized
   else g_comInitialized).

(** The destructor is [DestroyControl]. *)
Definition finalize : M unit := DestroyControl.

(** ** The host's view: calls on one instance *)

Inductive call :=
| attachToWindow (info : CallbackInfo)
| loadFile (info : CallbackInfo)
| setBounds (info : CallbackInfo)
| show
| hide
| destroy
| isLoaded.

Definition invoke (cfg : build) (os : Win32) (c : call) : M completion :=
  match c with
  | attachToWindow info => AttachToWindow cfg os info
  | loadFile info => LoadFile os info
  | setBounds info => SetBounds cfg os info
  | show => Show
  | hide => Hide
  | destroy => Destroy
  | isLoaded => IsLoaded
  end.

(** A session is a list of calls, each with the answers the system gives
    while it runs.  [run] lists the state after each call, [exec] gives the
    last one. *)
Fixpoint run (cfg : build) (session : list (call * Win32)) (s : EDrawingsPreview)
  : list EDrawingsPreview :=
  match session with
  | [] => []
  | (c, os) :: rest =>
      let s' := state_of (invoke cfg os c s) in
      s' :: run cfg rest s'
  end.

Fixpoint exec (cfg : build) (session : list (call * Win32)) (s : EDrawingsPreview)
  : EDrawingsPreview :=
  match session with
  | [] => s
  | (c, os) :: rest => exec cfg rest (state_of (invoke cfg os c s))
  end.

(** The states an instance can be in: those a session leads to from the
    constructed instance. *)
Definition reachable (cfg : build) (s : EDrawingsPreview) : Prop :=
  exists session, exec cfg session initial = s.

(** ** States of the life cycle *)

Definition Unattached (s : EDrawingsPreview) : Prop :=
  m_isAttached s = false /\ m_isFileLoaded s = false /\
  m_hwndContainer s = nullptr /\ m_pControl s = nullptr /\
  m_pDispatch s = nullptr.

Definition Attached (s : EDrawingsPreview) : Prop :=
  m_isAttached s = true /\ m_isFileLoaded s = false.

Definition AttachedLoaded (s : EDrawingsPreview) : Prop :=
  m_isAttached s = true /\ m_isFileLoaded s = true.

(** The invariant of the data model. *)
Definition state_invariant (s : EDrawingsPreview) : Prop :=
  (m_pDispatch s <> nullptr -> m_pControl s <> nullptr) /\
  (m_hwndContainer s <> nullptr -> m_isAttached s = true) /\
  (m_isFileLoaded s = true -> m_isAttached s = true).

(** What holds of every reachable state, whatever the system answers. *)
Definition window_invariant (s : EDrawingsPreview) : Prop :=
  (m_hwndContainer s <> nullptr <-> m_isAttached s = true) /\
  (m_isAttached s = true -> m_pControl s <> nullptr) /\
  (m_isFileLoaded s = true ->
   m_isAttached s = true /\ m_pDispatch s <> nullptr).

(** ** What COM promises about out-parameters

    [CoCreateInstance] and [IUnknown::QueryInterface] store a null pointer
    in [*ppv] when they fail. *)
Definition CoCreateInstance_contract (os : Win32) : Prop :=
  FAILED (fst (CoCreateInstance os)) = true -> snd (CoCreateInstance os) = nullptr.

Definition QueryInterface_contract (os : Win32) : Prop :=
  forall obj, FAILED (fst (QueryInterface os obj)) = true ->
              snd (QueryInterface os obj) = nullptr.

(** ** Resources held according to a log *)

Record holdings := {
  windows : list HWND;
  references : list Z
}.

Definition nothing : holdings := {| windows := []; references := [] |}.

Definition acquire (p : Z) (l : list Z) : list Z :=
  if is_null p then l else p :: l.

Fixpoint give_back (p : Z) (l : list Z) : list Z :=
  match l with
  | [] => []
  | q :: rest => if p =? q then rest else q :: give_back p rest
  end.

Definition account (h : holdings) (e : event) : holdings :=
  match e with
  | EvCreateWindowExW _ w =>
      {| windows := acquire w (windows h); references := references h |}
  | EvDestroyWindow w =>
      {| windows := give_back w (windows h); references := references h |}
  | EvCoCreateInstance _ p =>
      {| windows := windows h; references := acquire p (references h) |}
  | EvQueryInterface _ _ p =>
      {| windows := windows h; references := acquire p (references h) |}
  | EvRelease p =>
      {| windows := windows h; references := give_back p (references h) |}
  | _ => h
  end.

(** Windows created and not destroyed, interface pointers received and not
    released, after the calls of [log]. *)
Definition held (log : list event) : holdings := fold_left account log nothing.

(** ** Installation discovery *)

Record Machine := {
  PathFileExistsW : string -> bool;
  RegOpenKeyExW : string -> LSTATUS * HKEY;
  RegQueryValueExW : HKEY -> string -> LSTATUS * string
}.

(** The object handed back to JavaScript; [path = None] is [null]. *)
Record InstallInfo := {
  installed : bool;
  path : option string
}.

Definition paths : list string := [
  "C:\Program Files\SOLIDWORKS Corp\eDrawings\eDrawings.exe";
  "C:\Program Files\eDrawings\eDrawings.exe";
  "C:\Program Files (x86)\eDrawings\eDrawings.exe";
  "C:\Program Files\SOLIDWORKS Corp\SOLIDWORKS\eDrawings\eDrawings.exe"
].

Definition registry_key : string := "SOFTWARE\SolidWorks\eDrawings\General".
Definition registry_value : string := "InstallPath".

(** The [for] loop over [paths]: it stops at the first one that exists. *)
Fixpoint probe (m : Machine) (ps : list string) : option string * list event :=
  match ps with
  | [] => (None, [])
  | p :: rest =>
      if PathFileExistsW m p then (Some p, [EvPathFileExistsW p true])
      else
        let '(r, log) := probe m rest in
        (r, EvPathFileExistsW p false :: log)
  end.

Definition CheckEDrawingsInstalled (m : Machine) : InstallInfo * list event :=
  match probe m paths with
  | (Some p, log) => ({| installed := true; path := Some p |}, log)
  | (None, log) =>
      let status := fst (RegOpenKeyExW m registry_key) in
      let hKey := snd (RegOpenKeyExW m registry_key) in
      let log := log ++ [EvRegOpenKeyExW registry_key status hKey] in
      if status =? ERROR_SUCCESS then
        let status := fst (RegQueryValueExW m hKey registry_value) in
        let installPath := snd (RegQueryValueExW m hKey registry_value) in
        let log := log ++ [EvRegQueryValueExW hKey registry_value status] in
        if status =? ERROR_SUCCESS then
          ({| installed := true; path := Some (c_str installPath) |},
           log ++ [EvRegCloseKey hKey])
        else
          ({| installed := false; path := None |}, log ++ [EvRegCloseKey hKey])
      else ({| installed := false; path := None |}, log)
  end.

(** Calls that only read the file system or the registry, or close a key
    opened for reading. *)
Definition read_only (e : event) : bool :=
  match e with
  | EvPathFileExistsW _ _ | EvRegOpenKeyExW _ _ _
  | EvRegQueryValueExW _ _ _ | EvRegCloseKey _ => true
  | _ => false
  end.

(** Registry keys opened and not closed after the calls of [log]. *)
Fixpoint open_keys (log : list event) (opened : list HKEY) : list HKEY :=
  match log with
  | [] => opened
  | EvRegOpenKeyExW _ status hKey :: rest =>
      open_keys rest (if status =? ERROR_SUCCESS then hKey :: opened else opened)
  | EvRegCloseKey hKey :: rest => open_keys rest (give_back hKey opened)
  | _ :: rest => open_keys rest opened
  end.

(** ** Sample worlds *)

Definition x64 : build := {| sizeof_HWND := 8; NAPI_CPP_EXCEPTIONS := true |}.

(** A system where everything works: every handle is a live window, the
    container gets handle 4096, the control lives at 8192 and its dispatch
    interface at 8200. *)
Definition working : Win32 := {|
  IsWindow := fun _ => true;
  CreateWindowExW := fun _ => 4096;
  CoCreateInstance := (S_OK, 8192);
  QueryInterface := fun _ => (S_OK, 8200);
  GetIDsOfNames := fun _ _ => (S_OK, 7);
  Invoke := fun _ _ _ => S_OK;
  SetWindowPos := fun _ _ _ _ _ => true
|}.

(** The same system without the viewer registered. *)
Definition no_viewer : Win32 := {|
  IsWindow := fun _ => true;
  CreateWindowExW := fun _ => 4096;
  CoCreateInstance := (REGDB_E_CLASSNOTREG, nullptr);
  QueryInterface := fun _ => (E_NOINTERFACE, nullptr);
  GetIDsOfNames := fun _ _ => (S_OK, 7);
  Invoke := fun _ _ _ => S_OK;
  SetWindowPos := fun _ _ _ _ _ => true
|}.

(** An instance attached under window 66 in the working system. *)
Definition attached_66 : EDrawingsPreview :=
  state_of (AttachToWindow x64 working [JsNumber (Finite 66)] initial).

(** The same instance after loading a part. *)
Definition loaded_66 : EDrawingsPreview :=
  state_of (LoadFile working [JsString "C:\part.SLDPRT"] attached_66).

(** A machine with no viewer on disk and none in the registry. *)
Definition bare_machine : Machine := {|
  PathFileExistsW := fun _ => false;
  RegOpenKeyExW := fun _ => (ERROR_FILE_NOT_FOUND, 0);
  RegQueryValueExW := fun _ _ => (ERROR_FILE_NOT_FOUND, "")
|}.

(** ** Auxiliary notions and further sample worlds *)

(** With a [QueryInterface] that keeps its promise, an instance that is
    not attached holds no dispatch pointer. *)
Definition lifecycle_invariant (s : EDrawingsPreview) : Prop :=
  window_invariant s /\ (m_isAttached s = false -> m_pDispatch s = nullptr).

Definition sample_session : list (call * Win32) := [
  (attachToWindow [JsNumber (Finite 66)], no_viewer);
  (attachToWindow [JsNumber (Finite 66)], working);
  (loadFile [JsString "C:\part.SLDPRT"], working);
  (setBounds [JsNumber (Finite 0); JsNumber (Finite 0);
              JsNumber (Finite 640); JsNumber (Finite 480)], working);
  (hide, working);
  (show, working);
  (destroy, working)
].

(** A [QueryInterface] that fails and still stores a pointer would break
    the first clause: the promise is needed. *)
Definition rogue_QueryInterface : Win32 := {|
  IsWindow := fun _ => true;
  CreateWindowExW := fun _ => 4096;
  CoCreateInstance := (S_OK, 8192);
  QueryInterface := fun _ => (E_NOINTERFACE, 8200);
  GetIDsOfNames := fun _ _ => (S_OK, 7);
  Invoke := fun _ _ _ => S_OK;
  SetWindowPos := fun _ _ _ _ _ => true
|}.

Definition E_FAIL : HRESULT := -2147467259.

(** The working system with a viewer that refuses the document. *)
Definition viewer_rejects : Win32 := {|
  IsWindow := fun _ => true;
  CreateWindowExW := fun _ => 4096;
  CoCreateInstance := (S_OK, 8192);
  QueryInterface := fun _ => (S_OK, 8200);
  GetIDsOfNames := fun _ _ => (S_OK, 7);
  Invoke := fun _ _ _ => E_FAIL;
  SetWindowPos := fun _ _ _ _ _ => true
|}.

(** The exception the JavaScript caller gets, if any. *)
Definition raised (c : completion) : option string :=
  match observed c with
  | JsThrow msg => Some msg
  | JsReturn _ => None
  end.

(** The ways an attach can fail: no argument, a handle that is null or
    not a live window, no container window, no control, no dispatch
    interface. *)
Definition attach_fault (cfg : build) (os : Win32) (info : CallbackInfo) : bool :=
  let hwnd := hwnd_of_arg cfg (arg info 0) in
  (List.length info <? 1)%nat || is_null hwnd || negb (IsWindow os hwnd) ||
  is_null (CreateWindowExW os hwnd) ||
  FAILED (fst (CoCreateInstance os)) || is_null (snd (CoCreateInstance os)) ||
  FAILED (fst (QueryInterface os (snd (CoCreateInstance os)))).

(** The viewer is there but has no dispatch interface. *)
Definition no_dispatch : Win32 := {|
  IsWindow := fun _ => true;
  CreateWindowExW := fun _ => 4096;
  CoCreateInstance := (S_OK, 8192);
  QueryInterface := fun _ => (E_NOINTERFACE, nullptr);
  GetIDsOfNames := fun _ _ => (S_OK, 7);
  Invoke := fun _ _ _ => S_OK;
  SetWindowPos := fun _ _ _ _ _ => true
|}.

(** The instance of the samples after destroy. *)
Definition destroyed_66 : EDrawingsPreview := state_of (Destroy loaded_66).

(** A system where the container window cannot be moved. *)
Definition stuck_window : Win32 := {|
  IsWindow := fun _ => true;
  CreateWindowExW := fun _ => 4096;
  CoCreateInstance := (S_OK, 8192);
  QueryInterface := fun _ => (S_OK, 8200);
  GetIDsOfNames := fun _ _ => (S_OK, 7);
  Invoke := fun _ _ _ => S_OK;
  SetWindowPos := fun _ _ _ _ _ => false
|}.

(** The elements of a list up to and including the first that satisfies
    [f]. *)
Fixpoint upto {A} (f : A -> bool) (l : list A) : list A :=
  match l with
  | [] => []
  | x :: rest => if f x then [x] else x :: upto f rest
  end.

Definition registry_event (e : event) : bool :=
  match e with
  | EvRegOpenKeyExW _ _ _ | EvRegQueryValueExW _ _ _ | EvRegCloseKey _ => true
  | _ => false
  end.

Definition probe_event (m : Machine) (p : string) : event :=
  EvPathFileExistsW p (PathFileExistsW m p).

(** The registry lookup succeeded: the key was opened and the value
    read. *)
Definition registry_found (m : Machine) : Prop :=
  fst (RegOpenKeyExW m registry_key) = ERROR_SUCCESS /\
  fst (RegQueryValueExW m (snd (RegOpenKeyExW m registry_key)) registry_value)
    = ERROR_SUCCESS.

(** A machine with the viewer under the second and the fourth path. *)
Definition installed_machine : Machine := {|
  PathFileExistsW := fun p =>
    String.eqb p "C:\Program Files\eDrawings\eDrawings.exe" ||
    String.eqb p "C:\Program Files\SOLIDWORKS Corp\SOLIDWORKS\eDrawings\eDrawings.exe";
  RegOpenKeyExW := fun _ => (ERROR_SUCCESS, 300);
  RegQueryValueExW := fun _ _ => (ERROR_SUCCESS, "D:\eDrawings")
|}.

(** ** The rest of the addon: external open, construction, whole sessions *)

(** [ShellExecuteW] as [OpenInEDrawings] calls it, with the [HINSTANCE] it
    answered read as an [intptr_t]. *)
Inductive shell_call :=
| EvShellExecuteW (verb : string) (file : string) (ret : Z).

(** What a module-level function hands back: the value of its [return]
    and the exception it scheduled. *)
Record js_result := {
  js_value : jsval;
  js_pending : option string
}.

Definition OpenInEDrawings (ShellExecuteW : string -> string -> Z)
  (info : CallbackInfo) : js_result * list shell_call :=
  if (List.length info <? 1)%nat || negb (IsString (arg info 0)) then
    ({| js_value := JsNull; js_pending := Some "File path expected" |}, [])
  else
    let filePath := match arg info 0 with JsString p => p | _ => "" end in
    let wFilePath := c_str filePath in
    let result := ShellExecuteW "open" wFilePath in
    ({| js_value := JsBoolean (32 <? result); js_pending := None |},
     [EvShellExecuteW "open" wFilePath result]).

(** The constructor again, with the [CoInitializeEx] calls it makes: the
    instance, the new value of [g_comInitialized], and the results of the
    calls. *)
Definition Constructor (g_comInitialized : bool) (CoInitializeEx : HRESULT)
  : EDrawingsPreview * bool * list HRESULT :=
  if negb g_comInitialized then
    (initial,
     if SUCCEEDED CoInitializeEx || (CoInitializeEx =? S_FALSE) then true
     else g_comInitialized,
     [CoInitializeEx])
  else (initial, g_comInitialized, []).

(** Instances constructed one after the other; [answers] gives, for each
    construction, what [CoInitializeEx] answers if it is called then.  The
    result is the final flag and the calls made. *)
Fixpoint construct_each (g_comInitialized : bool) (answers : list HRESULT)
  : bool * list HRESULT :=
  match answers with
  | [] => (g_comInitialized, [])
  | hr :: rest =>
      let '(_, g, calls) := Constructor g_comInitialized hr in
      let '(g', calls') := construct_each g rest in
      (g', calls ++ calls')
  end.

(** Everything a session asked of the system, in order. *)
Fixpoint trace (cfg : build) (session : list (call * Win32)) (s : EDrawingsPreview)
  : list event :=
  match session with
  | [] => []
  | (c, os) :: rest =>
      log_of (invoke cfg os c s) ++ trace cfg rest (state_of (invoke cfg os c s))
  end.

(** Both promises of COM. *)
Definition conformant (os : Win32) : Prop :=
  CoCreateInstance_contract os /\ QueryInterface_contract os.

(** What the members of an instance refer to. *)
Definition owned (s : EDrawingsPreview) : holdings := {|
  windows := acquire (m_hwndContainer s) [];
  references := acquire (m_pDispatch s) (acquire (m_pControl s) [])
|}.

(** The three states of the life cycle, read off the two flags. *)
Inductive phase := PhaseUnattached | PhaseAttached | PhaseLoaded.

Definition phase_of (s : EDrawingsPreview) : phase :=
  if m_isAttached s then
    if m_isFileLoaded s then PhaseLoaded else PhaseAttached
  else PhaseUnattached.

(** A handle laid out in [n] bytes, least significant first, as the host
    has to write it into the buffer it passes. *)
Definition byte_of_Z (v : Z) : byte :=
  match Byte.of_N (Z.to_N (v mod 256)) with
  | Some b => b
  | None => Byte.x00
  end.

Fixpoint le_encode (n : nat) (v : Z) : list byte :=
  match n with
  | O => []
  | S k => byte_of_Z v :: le_encode k (v / 256)
  end.

(** No NUL character in a text. *)
Fixpoint nul_free (s : string) : bool :=
  match s with
  | EmptyString => true
  | String c rest => negb (Ascii.eqb c zero) && nul_free rest
  end.

(** The 64-bit build with [NAPI_DISABLE_CPP_EXCEPTIONS]. *)
Definition x64_pending : build :=
  {| sizeof_HWND := 8; NAPI_CPP_EXCEPTIONS := false |}.

(** A shell that finds no handler for the file ([SE_ERR_NOASSOC]). *)
Definition shell_no_association (verb file : string) : Z := 31.

Definition short_session : list (call * Win32) := [
  (attachToWindow [JsNumber (Finite 66)], working);
  (loadFile [JsString "C:\part.SLDPRT"], working);
  (show, working)
].

(** With both promises kept, an instance that is not attached holds no
    pointer at all. *)
Definition clean_invariant (s : EDrawingsPreview) : Prop :=
  window_invariant s /\
  (m_isAttached s = false -> m_pControl s = nullptr /\ m_pDispatch s = nullptr).

(** A call that can neither clear the loaded flag nor set it: anything
    but destroy and a loadFile given a string. *)
Definition keeps_loaded_flag (c : call) : bool :=
  match c with
  | destroy => false
  | loadFile info => negb (IsString (arg info 0))
  | _ => true
  end.

(** * Proofs *)

(** ** Symbolic execution of the methods *)

Ltac open_methods :=
  unfold invoke, finalize, AttachToWindow, LoadFile, SetBounds, Show, Hide,
    Destroy, IsLoaded, DestroyControl, CreateControl;
  unfold bind, ret, this, assign, sys, state_of, result_of, log_of.

Ltac branch :=
  match goal with
  | |- context [if ?b then _ else _] => destruct b eqn:?
  | |- context [match Int32Value ?v with _ => _ end] =>
      destruct (Int32Value v) eqn:?
  end.

Ltac branches := cbn; repeat (branch; cbn).

Ltac pointers :=
  unfold is_null, nullptr in *;
  repeat match goal with
    | H : (_ =? _) = true |- _ => apply Z.eqb_eq in H
    | H : (_ =? _) = false |- _ => apply Z.eqb_neq in H
    | H : (_ || _)%bool = true |- _ => apply orb_true_iff in H
    | H : (_ || _)%bool = false |- _ => apply orb_false_iff in H; destruct H
    | H : negb _ = true |- _ => apply negb_true_iff in H
    | H : negb _ = false |- _ => apply negb_false_iff in H
    end.

Ltac settle :=
  repeat split; intros; subst; try tauto; try congruence;
  try (exfalso; intuition congruence); try (intuition congruence).

(** ** Invariants of the reachable states *)

Lemma window_invariant_initial : window_invariant initial.
Proof.
  unfold window_invariant, initial, nullptr; cbn.
  repeat split; intros; try congruence; try discriminate.
Qed.

Lemma window_invariant_step cfg os c s :
  window_invariant s -> window_invariant (state_of (invoke cfg os c s)).
Proof.
  destruct s as [par con ctl dis att lod].
  unfold window_invariant; cbn. intros (Hw & Hc & Hl).
  destruct c; open_methods; branches; pointers; cbn in *; settle.
Qed.

Lemma window_invariant_exec cfg session :
  forall s, window_invariant s -> window_invariant (exec cfg session s).
Proof.
  induction session as [|[c os] rest IH]; intros s Hs; cbn; auto.
  apply IH, window_invariant_step, Hs.
Qed.

Lemma reachable_window_invariant cfg s :
  reachable cfg s -> window_invariant s.
Proof.
  intros [session <-]. apply window_invariant_exec, window_invariant_initial.
Qed.

Lemma lifecycle_invariant_initial : lifecycle_invariant initial.
Proof. split; [apply window_invariant_initial | reflexivity]. Qed.

Lemma lifecycle_invariant_step cfg os c s :
  QueryInterface_contract os ->
  lifecycle_invariant s -> lifecycle_invariant (state_of (invoke cfg os c s)).
Proof.
  intros Hqi [Hw Hd]. split; [apply window_invariant_step, Hw|].
  clear Hw. destruct s as [par con ctl dis att lod]. cbn in Hd.
  destruct c; open_methods; branches; pointers; cbn in *; settle.
  match goal with
  | H : FAILED (fst (QueryInterface os ?p)) = true |- _ => apply (Hqi p H)
  end.
Qed.

Lemma lifecycle_invariant_state_invariant s :
  lifecycle_invariant s -> state_invariant s.
Proof.
  intros [(Hw & Hc & Hl) Hd]. repeat split.
  - intros Hdis. destruct (m_isAttached s) eqn:Ha; [auto|].
    exfalso. apply Hdis, Hd. reflexivity.
  - apply Hw.
  - apply Hl.
Qed.

Lemma run_preserves cfg (P : EDrawingsPreview -> Prop) (good : Win32 -> Prop) :
  (forall os c s, good os -> P s -> P (state_of (invoke cfg os c s))) ->
  forall session s,
    Forall (fun step => good (snd step)) session -> P s ->
    Forall P (run cfg session s).
Proof.
  intros Hstep. induction session as [|[c os] rest IH]; intros s Hall Hs; cbn.
  - constructor.
  - inversion Hall as [|? ? Hos Hrest]; subst. cbn in Hos.
    constructor; [apply Hstep; assumption|].
    apply IH; [assumption | apply Hstep; assumption].
Qed.

(** C1. From the constructed instance, after each call of any session of
    attachToWindow, loadFile, setBounds, show, hide, destroy (and
    isLoaded), the dispatch pointer is non-null only if the control
    pointer is, the container window handle is non-null only if the
    attached flag is set, and the loaded flag is set only if the attached
    flag is.  The system is only required to null the out-parameter of a
    failing [QueryInterface]. *)
Theorem state_invariant_after_each_call cfg session :
  Forall (fun step => QueryInterface_contract (snd step)) session ->
  Forall state_invariant (run cfg session initial).
Proof.
  intros Hall.
  apply Forall_impl with (P := lifecycle_invariant).
  - apply lifecycle_invariant_state_invariant.
  - apply (run_preserves cfg lifecycle_invariant QueryInterface_contract).
    + intros os c s. apply lifecycle_invariant_step.
    + exact Hall.
    + apply lifecycle_invariant_initial.
Qed.

Lemma working_QueryInterface_contract : QueryInterface_contract working.
Proof. intros obj H. cbn in H. discriminate H. Qed.

Lemma no_viewer_QueryInterface_contract : QueryInterface_contract no_viewer.
Proof. intros obj H. reflexivity. Qed.

Lemma state_invariant_after_each_call_witness :
  Forall (fun step => QueryInterface_contract (snd step)) sample_session /\
  Forall state_invariant (run x64 sample_session initial).
Proof.
  assert (H : Forall (fun step => QueryInterface_contract (snd step)) sample_session).
  { unfold sample_session.
    repeat (constructor;
            [first [exact working_QueryInterface_contract
                   | exact no_viewer_QueryInterface_contract]|]).
    constructor. }
  split; [exact H | exact (state_invariant_after_each_call x64 sample_session H)].
Defined.

Example rogue_QueryInterface_breaks_invariant :
  ~ state_invariant
      (state_of (AttachToWindow x64 rogue_QueryInterface
                   [JsNumber (Finite 66)] initial)).
Proof.
  intros (H & _). cbn in H. unfold nullptr in H.
  apply H; [discriminate | reflexivity].
Qed.

(** ** Reachability of the sample states *)

Lemma reachable_initial cfg : reachable cfg initial.
Proof. exists []. reflexivity. Qed.

Lemma reachable_step cfg os c s :
  reachable cfg s -> reachable cfg (state_of (invoke cfg os c s)).
Proof.
  intros [session <-]. exists (session ++ [(c, os)]).
  generalize initial. induction session as [|[c' os'] rest IH]; intro s0; cbn.
  - reflexivity.
  - apply IH.
Qed.

Lemma reachable_attached_66 : reachable x64 attached_66.
Proof.
  apply (reachable_step x64 working (attachToWindow [JsNumber (Finite 66)])).
  apply reachable_initial.
Qed.

Lemma reachable_loaded_66 : reachable x64 loaded_66.
Proof.
  apply (reachable_step x64 working (loadFile [JsString "C:\part.SLDPRT"])).
  apply reachable_attached_66.
Qed.

(** ** attachToWindow with a handle that is no window *)

(** C2, as stated, fails on an attached instance: the call returns false
    but the instance stays attached. *)
Lemma attach_null_handle_keeps_attached :
  reachable x64 attached_66 /\
  hwnd_of_arg x64 (arg [JsNumber (Finite 0)] 0) = nullptr /\
  result_of (AttachToWindow x64 working [JsNumber (Finite 0)] attached_66)
    = Returns false None /\
  ~ Unattached
      (state_of (AttachToWindow x64 working [JsNumber (Finite 0)] attached_66)).
Proof.
  split; [exact reachable_attached_66|].
  split; [reflexivity|]. split; [reflexivity|].
  intros (Hatt & _). cbn in Hatt. discriminate Hatt.
Qed.

(** C2, amended.  In any state, attachToWindow with a handle that is null
    or is not a live window returns false, raises nothing, creates
    nothing and leaves every member as it was; so an Unattached instance
    stays Unattached. *)
Theorem attach_invalid_handle_changes_nothing cfg os info s :
  info <> [] ->
  hwnd_of_arg cfg (arg info 0) = nullptr \/
  IsWindow os (hwnd_of_arg cfg (arg info 0)) = false ->
  result_of (AttachToWindow cfg os info s) = Returns false None /\
  state_of (AttachToWindow cfg os info s) = s /\
  (Unattached s -> Unattached (state_of (AttachToWindow cfg os info s))) /\
  held (log_of (AttachToWindow cfg os info s)) = nothing.
Proof.
  intros Hinfo Hbad.
  assert (Hlen : (List.length info <? 1)%nat = false).
  { destruct info; [congruence | reflexivity]. }
  assert (Heq : fst (AttachToWindow cfg os info s) = (Returns false None, s)).
  { unfold AttachToWindow. rewrite Hlen.
    destruct (is_null (hwnd_of_arg cfg (arg info 0))) eqn:Hnull.
    - reflexivity.
    - destruct Hbad as [Hz | Hdead].
      + unfold is_null in Hnull. apply Z.eqb_neq in Hnull. contradiction.
      + unfold bind, sys, ret. rewrite Hdead. reflexivity. }
  assert (Hlog : held (log_of (AttachToWindow cfg os info s)) = nothing).
  { unfold AttachToWindow. rewrite Hlen.
    destruct (is_null (hwnd_of_arg cfg (arg info 0))) eqn:Hnull.
    - reflexivity.
    - destruct Hbad as [Hz | Hdead].
      + unfold is_null in Hnull. apply Z.eqb_neq in Hnull. contradiction.
      + unfold bind, sys, ret. rewrite Hdead. reflexivity. }
  unfold result_of, state_of. rewrite Heq. cbn.
  split; [reflexivity|]. split; [reflexivity|].
  split; [intro Hs; exact Hs | exact Hlog].
Qed.

Lemma attach_invalid_handle_changes_nothing_witness :
  result_of (AttachToWindow x64 working [JsNumber (Finite 0)] initial)
    = Returns false None /\
  state_of (AttachToWindow x64 working [JsNumber (Finite 0)] initial) = initial /\
  (Unattached initial ->
   Unattached (state_of (AttachToWindow x64 working [JsNumber (Finite 0)] initial))) /\
  held (log_of (AttachToWindow x64 working [JsNumber (Finite 0)] initial)) = nothing.
Proof.
  apply (attach_invalid_handle_changes_nothing x64 working
           [JsNumber (Finite 0)] initial).
  - discriminate.
  - left. reflexivity.
Defined.

(** ** loadFile that fails *)




(** ** Which calls raise *)

Lemma IsNumber_Int32Value v :
  IsNumber v = match Int32Value v with inl _ => true | inr _ => false end.
Proof. destruct v as [| | |[|]| | |]; reflexivity. Qed.

(** C4, as stated, fails for each of the three methods: a handle of the
    wrong type, and wrong arguments to loadFile or setBounds on an
    instance that is not attached, are answered with false. *)
Lemma wrong_arguments_answered_with_false :
  observed (result_of (AttachToWindow x64 working [JsString "window"] initial))
    = JsReturn false /\
  observed (result_of (LoadFile working [JsNumber (Finite 42)] initial))
    = JsReturn false /\
  observed (result_of (SetBounds x64 working [] initial)) = JsReturn false.
Proof. repeat split; reflexivity. Qed.

(** C4, amended.  attachToWindow raises only when it is called without
    argument; loadFile raises for a missing or non-string path only on an
    instance that is attached and holds a dispatch pointer; setBounds
    raises for fewer than four arguments, or for a non-number among the
    first four, only on an instance that has a container window.  In
    every other case no exception reaches the caller. *)
Theorem calls_raise_exactly_when cfg os info s :
  raised (result_of (AttachToWindow cfg os info s)) =
    (if (List.length info <? 1)%nat
     then Some "Window handle (HWND as number) expected" else None) /\
  raised (result_of (LoadFile os info s)) =
    (if m_isAttached s && negb (is_null (m_pDispatch s)) &&
        ((List.length info <? 1)%nat || negb (IsString (arg info 0)))
     then Some "File path expected" else None) /\
  raised (result_of (SetBounds cfg os info s)) =
    (if is_null (m_hwndContainer s) then None
     else if (List.length info <? 4)%nat then Some "x, y, width, height expected"
     else if IsNumber (arg info 0) && IsNumber (arg info 1) &&
             IsNumber (arg info 2) && IsNumber (arg info 3)
     then None else Some number_expected).
Proof.
  destruct s as [par con ctl dis att lod].
  split; [|split].
  - open_methods; branches; reflexivity.
  - open_methods; cbn.
    destruct att; cbn; [|reflexivity].
    destruct (is_null dis); cbn; [reflexivity|].
    repeat (branch; cbn); reflexivity.
  - open_methods; cbn.
    destruct (is_null con); cbn; [reflexivity|].
    branch; cbn; [reflexivity|].
    rewrite !IsNumber_Int32Value.
    destruct (Int32Value (arg info 0)), (Int32Value (arg info 1)),
      (Int32Value (arg info 2)), (Int32Value (arg info 3));
      cbn; try reflexivity; destruct (NAPI_CPP_EXCEPTIONS cfg); reflexivity.
Qed.

(** ** attachToWindow that fails *)

Lemma give_back_head p l : give_back p (p :: l) = l.
Proof. cbn. rewrite Z.eqb_refl. reflexivity. Qed.

Lemma acquire_null l : acquire 0 l = l.
Proof. reflexivity. Qed.

Lemma acquire_live p l : p <> 0 -> acquire p l = p :: l.
Proof.
  intros Hp. unfold acquire, is_null, nullptr.
  apply Z.eqb_neq in Hp. rewrite Hp. reflexivity.
Qed.

(** C5.  On an Unattached instance, an attachToWindow that fails at any
    step (no argument, handle null or not a live window, container window
    not created, control not instantiated, dispatch interface not
    obtained) returns false and keeps nothing: the container window it
    created is destroyed, the control reference it received is released,
    and every member of the instance is as it was before the call, so the
    instance is still Unattached.  COM is required to null the
    out-parameter of a failing call. *)
Theorem failed_attach_retains_nothing cfg os info s :
  Unattached s ->
  CoCreateInstance_contract os ->
  QueryInterface_contract os ->
  attach_fault cfg os info = true ->
  returned (result_of (AttachToWindow cfg os info s)) = Some false /\
  state_of (AttachToWindow cfg os info s) = s /\
  Unattached (state_of (AttachToWindow cfg os info s)) /\
  held (log_of (AttachToWindow cfg os info s)) = nothing.
Proof.
  intros Hs Hco Hqi Hfault.
  assert (Hmain :
    returned (result_of (AttachToWindow cfg os info s)) = Some false /\
    state_of (AttachToWindow cfg os info s) = s /\
    held (log_of (AttachToWindow cfg os info s)) = nothing).
  { destruct s as [par con ctl dis att lod].
    destruct Hs as (Ha & Hl & Hc & Hp & Hd). cbn in Ha, Hl, Hc, Hp, Hd. subst.
    unfold attach_fault, CoCreateInstance_contract in *.
    revert Hfault.
    open_methods; unfold held, with_hwndContainer, with_pControl, with_pDispatch,
      with_hwndParent, with_isAttached; branches; intros Hfault.
    - repeat split; reflexivity.
    - repeat split; reflexivity.
    - repeat split; reflexivity.
    - (* no container window *)
      pointers.
      match goal with H : CreateWindowExW _ _ = 0 |- _ => rewrite H end.
      repeat split; reflexivity.
    - (* no control *)
      pointers.
      assert (Hnull : snd (CoCreateInstance os) = 0).
      { match goal with
        | H : _ \/ _ |- _ =>
            destruct H as [H|H]; [apply Hco, H | apply Z.eqb_eq, H]
        end. }
      rewrite Hnull, acquire_live, give_back_head by assumption.
      repeat split; reflexivity.
    - (* no dispatch interface *)
      pointers.
      match goal with
      | H : FAILED (fst (QueryInterface os ?p)) = true |- _ =>
          rewrite (Hqi p H)
      end.
      rewrite acquire_null, !acquire_live, !give_back_head by assumption.
      repeat split; reflexivity.
    - (* attached: there was no fault *)
      exfalso.
      repeat match goal with
             | H : _ = false |- _ => rewrite H in Hfault
             end.
      cbn in Hfault. discriminate Hfault. }
  destruct Hmain as (Hr & Hst & Hlog).
  repeat split; try assumption; rewrite Hst; apply Hs.
Qed.

(** When nothing fails the instance gets attached, so the four
    conclusions above are about every call that returns false. *)
Lemma attach_without_fault cfg os info s :
  attach_fault cfg os info = false ->
  result_of (AttachToWindow cfg os info s) = Returns true None /\
  m_isAttached (state_of (AttachToWindow cfg os info s)) = true.
Proof.
  destruct s as [par con ctl dis att lod].
  unfold attach_fault. intros Hfault.
  repeat (apply orb_false_iff in Hfault; destruct Hfault as [Hfault ?]).
  repeat match goal with
         | H : negb _ = false |- _ => apply negb_false_iff in H
         end.
  destruct info as [|v rest]; [discriminate Hfault|]. cbn [arg nth] in *.
  open_methods; cbn.
  repeat (match goal with H : ?x = _ |- context [?x] => rewrite H end; cbn).
  destruct att; cbn;
    repeat (match goal with H : ?x = _ |- context [?x] => rewrite H end; cbn);
    split; reflexivity.
Qed.

Lemma failed_attach_retains_nothing_witness :
  returned (result_of (AttachToWindow x64 no_dispatch [JsNumber (Finite 66)] initial))
    = Some false /\
  state_of (AttachToWindow x64 no_dispatch [JsNumber (Finite 66)] initial) = initial /\
  Unattached (state_of (AttachToWindow x64 no_dispatch [JsNumber (Finite 66)] initial)) /\
  held (log_of (AttachToWindow x64 no_dispatch [JsNumber (Finite 66)] initial))
    = nothing.
Proof.
  apply (failed_attach_retains_nothing x64 no_dispatch [JsNumber (Finite 66)] initial).
  - repeat split; reflexivity.
  - intros H. cbn in H. discriminate H.
  - intros obj H. reflexivity.
  - reflexivity.
Defined.

(** ** destroy *)

(** C6, as stated, fails on the parent handle: after a successful attach
    it survives destroy, however often destroy is called. *)
Lemma destroy_keeps_parent_handle :
  reachable x64 attached_66 /\
  result_of (Destroy (state_of (Destroy attached_66))) = Returns true None /\
  m_hwndParent (state_of (Destroy (state_of (Destroy attached_66)))) <> nullptr.
Proof.
  split; [exact reachable_attached_66|].
  split; [reflexivity|]. cbn. discriminate.
Qed.

Lemma Destroy_Unattached s :
  Unattached s -> Destroy s = (Returns true None, s, []).
Proof.
  destruct s as [par con ctl dis att lod].
  intros (Ha & Hl & Hc & Hp & Hd). cbn in Ha, Hl, Hc, Hp, Hd. subst.
  reflexivity.
Qed.

(** C6, amended.  In any state destroy returns true and leaves the
    instance Unattached: both flags false, no container window, no
    control and no dispatch pointer.  The parent handle is not reset.  A
    second destroy, and any further one, returns true, calls nothing and
    changes nothing. *)
Theorem destroy_is_idempotent cfg os s :
  result_of (Destroy s) = Returns true None /\
  Unattached (state_of (Destroy s)) /\
  m_hwndParent (state_of (Destroy s)) = m_hwndParent s /\
  Destroy (state_of (Destroy s)) = (Returns true None, state_of (Destroy s), []) /\
  forall n, exec cfg (repeat (destroy, os) n) (state_of (Destroy s))
            = state_of (Destroy s).
Proof.
  assert (Hun : Unattached (state_of (Destroy s))).
  { destruct s as [par con ctl dis att lod].
    open_methods; branches; pointers; subst; repeat split; reflexivity. }
  assert (Hres : result_of (Destroy s) = Returns true None).
  { destruct s as [par con ctl dis att lod].
    open_methods; branches; reflexivity. }
  assert (Hpar : m_hwndParent (state_of (Destroy s)) = m_hwndParent s).
  { destruct s as [par con ctl dis att lod].
    open_methods; branches; reflexivity. }
  repeat split; try apply Hun; try assumption.
  - apply Destroy_Unattached, Hun.
  - induction n as [|n IH]; cbn; [reflexivity|].
    rewrite (Destroy_Unattached _ Hun). exact IH.
Qed.

(** ** Calls on an instance that is not attached *)

(** C7.  On an instance whose attached flag is false, loadFile returns
    false whatever its arguments, makes no call at all (no name lookup, no
    invocation) and leaves the instance as it was. *)
Theorem load_unattached_does_nothing os info s :
  m_isAttached s = false ->
  LoadFile os info s = (Returns false None, s, []).
Proof.
  intros Ha. unfold LoadFile, bind, this, ret. rewrite Ha. reflexivity.
Qed.

Lemma load_unattached_does_nothing_witness :
  LoadFile working [JsString "C:\part.SLDPRT"] initial
    = (Returns false None, initial, []).
Proof.
  apply (load_unattached_does_nothing working [JsString "C:\part.SLDPRT"] initial).
  reflexivity.
Defined.

(** C8.  On a reachable instance whose attached flag is false (attach
    never succeeded, or destroy was called since), setBounds, show and
    hide return false, raise nothing, make no call on any window and
    leave the instance as it was. *)
Theorem unattached_window_calls_do_nothing cfg os info s :
  reachable cfg s ->
  m_isAttached s = false ->
  SetBounds cfg os info s = (Returns false None, s, []) /\
  Show s = (Returns false None, s, []) /\
  Hide s = (Returns false None, s, []).
Proof.
  intros Hreach Ha.
  destruct (reachable_window_invariant cfg s Hreach) as (Hw & _ & _).
  assert (Hcon : is_null (m_hwndContainer s) = true).
  { unfold is_null. apply Z.eqb_eq.
    destruct (Z.eq_dec (m_hwndContainer s) nullptr) as [|Hne]; [assumption|].
    apply Hw in Hne. congruence. }
  unfold SetBounds, Show, Hide, bind, this, ret. rewrite Hcon.
  repeat split; reflexivity.
Qed.

Lemma reachable_destroyed_66 : reachable x64 destroyed_66.
Proof.
  apply (reachable_step x64 working destroy). apply reachable_loaded_66.
Qed.

Lemma unattached_window_calls_do_nothing_witness :
  SetBounds x64 working
    [JsNumber (Finite 0); JsNumber (Finite 0);
     JsNumber (Finite 640); JsNumber (Finite 480)] destroyed_66
    = (Returns false None, destroyed_66, []) /\
  Show destroyed_66 = (Returns false None, destroyed_66, []) /\
  Hide destroyed_66 = (Returns false None, destroyed_66, []).
Proof.
  apply (unattached_window_calls_do_nothing x64 working
           [JsNumber (Finite 0); JsNumber (Finite 0);
            JsNumber (Finite 640); JsNumber (Finite 480)] destroyed_66).
  - exact reachable_destroyed_66.
  - reflexivity.
Defined.

(** ** setBounds on an attached instance *)

(** C10, as stated, fails when one of the four arguments is not a number:
    on an attached instance the caller gets the exception of the
    conversion, not true.  With C++ exceptions the method does not return
    at all; without them it returns true behind the pending exception,
    which the caller never sees. *)
Lemma setBounds_non_number_raises :
  reachable x64 attached_66 /\
  m_isAttached attached_66 = true /\
  List.length [JsString "a"; JsNumber (Finite 1);
               JsNumber (Finite 2); JsNumber (Finite 3)] = 4%nat /\
  result_of (SetBounds x64 working
               [JsString "a"; JsNumber (Finite 1);
                JsNumber (Finite 2); JsNumber (Finite 3)] attached_66)
    = Unwinds number_expected /\
  observed (result_of (SetBounds x64 working
                         [JsString "a"; JsNumber (Finite 1);
                          JsNumber (Finite 2); JsNumber (Finite 3)] attached_66))
    <> JsReturn true /\
  observed (result_of (SetBounds x64_pending working
                         [JsString "a"; JsNumber (Finite 1);
                          JsNumber (Finite 2); JsNumber (Finite 3)] attached_66))
    = JsThrow number_expected.
Proof.
  split; [exact reachable_attached_66|].
  repeat split; try reflexivity. cbn. discriminate.
Qed.

(** C10, amended.  On an attached instance, a setBounds call with four
    (or more) arguments of which the first four are numbers returns true
    and raises nothing after one [SetWindowPos] on the container,
    whatever [SetWindowPos] answered: the result does not reflect whether
    the window was moved.  When one of the first four is not a number the
    caller gets the exception of the conversion instead.  In both cases
    the method never returns false and changes no member. *)
Theorem setBounds_returns_true_whatever_SetWindowPos cfg os info s :
  reachable cfg s ->
  m_isAttached s = true ->
  (4 <= List.length info)%nat ->
  state_of (SetBounds cfg os info s) = s /\
  (forall v, returned (result_of (SetBounds cfg os info s)) = Some v -> v = true) /\
  (IsNumber (arg info 0) && IsNumber (arg info 1) &&
   IsNumber (arg info 2) && IsNumber (arg info 3) = true ->
   SetBounds cfg os info s =
     (Returns true None, s,
      [EvSetWindowPos (m_hwndContainer s)
         (value_or_zero (Int32Value (arg info 0)))
         (value_or_zero (Int32Value (arg info 1)))
         (value_or_zero (Int32Value (arg info 2)))
         (value_or_zero (Int32Value (arg info 3)))
         (SetWindowPos os (m_hwndContainer s)
            (value_or_zero (Int32Value (arg info 0)))
            (value_or_zero (Int32Value (arg info 1)))
            (value_or_zero (Int32Value (arg info 2)))
            (value_or_zero (Int32Value (arg info 3))))])) /\
  (IsNumber (arg info 0) && IsNumber (arg info 1) &&
   IsNumber (arg info 2) && IsNumber (arg info 3) = false ->
   observed (result_of (SetBounds cfg os info s)) = JsThrow number_expected).
Proof.
  intros Hreach Ha Hlen.
  destruct (reachable_window_invariant cfg s Hreach) as (Hw & _ & _).
  assert (Hcon : is_null (m_hwndContainer s) = false).
  { unfold is_null. apply Z.eqb_neq, Hw, Ha. }
  assert (Hlt : (List.length info <? 4)%nat = false).
  { apply Nat.ltb_ge, Hlen. }
  unfold SetBounds, bind, this, ret, sys, state_of, result_of.
  rewrite Hcon, Hlt, !IsNumber_Int32Value.
  destruct (Int32Value (arg info 0)), (Int32Value (arg info 1)),
    (Int32Value (arg info 2)), (Int32Value (arg info 3));
    destruct (NAPI_CPP_EXCEPTIONS cfg); cbn;
    (split; [reflexivity|]); (split; [intros v Hv; congruence|]);
    (split; intros Hnum; solve [reflexivity | discriminate Hnum]).
Qed.

Lemma setBounds_returns_true_whatever_SetWindowPos_witness :
  SetBounds x64 stuck_window
    [JsNumber (Finite 10); JsNumber (Finite 20);
     JsNumber (Finite 640); JsNumber (Finite 480)] attached_66
  = (Returns true None, attached_66, [EvSetWindowPos 4096 10 20 640 480 false]).
Proof.
  apply (setBounds_returns_true_whatever_SetWindowPos x64 stuck_window
           [JsNumber (Finite 10); JsNumber (Finite 20);
            JsNumber (Finite 640); JsNumber (Finite 480)] attached_66).
  - exact reachable_attached_66.
  - reflexivity.
  - cbn. lia.
  - reflexivity.
Defined.

(** ** Installation discovery *)

Lemma probe_find m ps :
  probe m ps = (find (PathFileExistsW m) ps,
                map (probe_event m) (upto (PathFileExistsW m) ps)).
Proof.
  induction ps as [|p rest IH]; cbn; [reflexivity|].
  unfold probe_event. rewrite IH.
  destruct (PathFileExistsW m p) eqn:Hp; cbn; rewrite ?Hp; reflexivity.
Qed.

Lemma probe_events_read_only m ps :
  forallb read_only (map (probe_event m) ps) = true /\
  existsb registry_event (map (probe_event m) ps) = false /\
  forall opened, open_keys (map (probe_event m) ps) opened = opened.
Proof.
  induction ps as [|p rest (IH1 & IH2 & IH3)]; cbn; auto.
Qed.

Lemma open_keys_app log1 log2 :
  forall opened, open_keys (log1 ++ log2) opened = open_keys log2 (open_keys log1 opened).
Proof.
  induction log1 as [|e rest IH]; intros opened; cbn; [reflexivity|].
  destruct e; apply IH.
Qed.

(** C9.  checkInstalled only reads: it asks whether the four fixed paths
    exist, in their order and up to the first that does; it turns to the
    registry exactly when none exists, and closes the key it opened.  The
    first path found is returned as installed with that path; with no path
    found, a successful registry lookup is returned as installed with the
    value read, and a failed one as not installed with a null path. *)
Theorem CheckEDrawingsInstalled_first_found m :
  List.length paths = 4%nat /\
  forallb read_only (snd (CheckEDrawingsInstalled m)) = true /\
  open_keys (snd (CheckEDrawingsInstalled m)) [] = [] /\
  firstn (List.length (upto (PathFileExistsW m) paths))
         (snd (CheckEDrawingsInstalled m))
    = map (probe_event m) (upto (PathFileExistsW m) paths) /\
  (forall p,
     find (PathFileExistsW m) paths = Some p ->
     fst (CheckEDrawingsInstalled m) = {| installed := true; path := Some p |} /\
     existsb registry_event (snd (CheckEDrawingsInstalled m)) = false) /\
  (find (PathFileExistsW m) paths = None ->
   existsb registry_event (snd (CheckEDrawingsInstalled m)) = true /\
   (registry_found m ->
    fst (CheckEDrawingsInstalled m) =
      {| installed := true;
         path := Some (c_str (snd (RegQueryValueExW m
                                     (snd (RegOpenKeyExW m registry_key))
                                     registry_value))) |}) /\
   (~ registry_found m ->
    fst (CheckEDrawingsInstalled m) = {| installed := false; path := None |})).
Proof.
  unfold CheckEDrawingsInstalled, registry_found.
  rewrite probe_find.
  set (probes := upto (PathFileExistsW m) paths).
  destruct (probe_events_read_only m probes) as (Hro & Hnoreg & Hkeys).
  assert (Hlen : List.length (map (probe_event m) probes) = List.length probes)
    by apply length_map.
  destruct (find (PathFileExistsW m) paths) as [p|] eqn:Hfind.
  - cbn [fst snd].
    split; [reflexivity|]. split; [exact Hro|]. split; [apply Hkeys|].
    split; [rewrite <- Hlen; apply firstn_all|].
    split; [|discriminate].
    intros q Hq. injection Hq as <-. split; [reflexivity | exact Hnoreg].
  - set (opened := RegOpenKeyExW m registry_key).
    set (value := RegQueryValueExW m (snd opened) registry_value).
    assert (Hprefix : forall tail,
      firstn (List.length probes) (map (probe_event m) probes ++ tail)
        = map (probe_event m) probes).
    { intros tail. rewrite <- Hlen, firstn_app, firstn_all, Nat.sub_diag.
      cbn. apply app_nil_r. }
    destruct (fst opened =? ERROR_SUCCESS) eqn:Hopen;
      [destruct (fst value =? ERROR_SUCCESS) eqn:Hquery|];
      cbn [fst snd];
      (split; [reflexivity|]);
      (split; [rewrite <- ?app_assoc, forallb_app, Hro; reflexivity|]);
      (split; [rewrite <- ?app_assoc, open_keys_app, Hkeys; cbn;
               rewrite ?Hopen; cbn; rewrite ?Z.eqb_refl; reflexivity|]);
      (split; [rewrite <- ?app_assoc; apply Hprefix|]);
      (split; [discriminate|]); intros _;
      (split; [rewrite <- ?app_assoc, existsb_app, Hnoreg; reflexivity|]).
    + split; [reflexivity|]. intros Hnot. exfalso. apply Hnot.
      split; apply Z.eqb_eq; assumption.
    + split; [|reflexivity]. intros [_ Hq].
      apply Z.eqb_neq in Hquery. contradiction.
    + split; [|reflexivity]. intros [Ho _].
      apply Z.eqb_neq in Hopen. contradiction.
Qed.

Lemma CheckEDrawingsInstalled_first_found_witness :
  fst (CheckEDrawingsInstalled bare_machine) = {| installed := false; path := None |}.
Proof.
  destruct (CheckEDrawingsInstalled_first_found bare_machine)
    as (_ & _ & _ & _ & _ & Hnone).
  destruct (Hnone eq_refl) as (_ & _ & Habsent).
  apply Habsent. intros [Hopen _]. cbn in Hopen. discriminate Hopen.
Defined.

Example CheckEDrawingsInstalled_second_path :
  CheckEDrawingsInstalled installed_machine =
    ({| installed := true;
        path := Some "C:\Program Files\eDrawings\eDrawings.exe" |},
     [EvPathFileExistsW
        "C:\Program Files\SOLIDWORKS Corp\eDrawings\eDrawings.exe" false;
      EvPathFileExistsW "C:\Program Files\eDrawings\eDrawings.exe" true]).
Proof. reflexivity. Qed.

(** The scenario of the specification: attach, load, query, destroy,
    query. *)
Example end_to_end :
  map (fun step => result_of (invoke x64 working (fst step) (snd step)))
      [(attachToWindow [JsNumber (Finite 66)], initial);
       (loadFile [JsString "C:\part.SLDPRT"], attached_66);
       (isLoaded, loaded_66);
       (destroy, loaded_66);
       (isLoaded, destroyed_66)]
  = [Returns true None; Returns true None; Returns true None;
     Returns true None; Returns false None].
Proof. reflexivity. Qed.

(** * Beyond the claims *)

(** ** Sessions *)

Lemma exec_app cfg session1 session2 :
  forall s, exec cfg (session1 ++ session2) s
            = exec cfg session2 (exec cfg session1 s).
Proof.
  induction session1 as [|[c os] rest IH]; intros s; cbn; [reflexivity|].
  apply IH.
Qed.

Lemma trace_app cfg session1 session2 :
  forall s, trace cfg (session1 ++ session2) s
            = trace cfg session1 s ++ trace cfg session2 (exec cfg session1 s).
Proof.
  induction session1 as [|[c os] rest IH]; intros s; cbn; [reflexivity|].
  rewrite IH, app_assoc. reflexivity.
Qed.

(** ** No window and no reference is lost *)

Lemma clean_invariant_initial : clean_invariant initial.
Proof. split; [apply window_invariant_initial | split; reflexivity]. Qed.

Lemma clean_invariant_step cfg os c s :
  conformant os ->
  clean_invariant s -> clean_invariant (state_of (invoke cfg os c s)).
Proof.
  intros [Hco Hqi] [Hw Hd]. split; [apply window_invariant_step, Hw|].
  clear Hw. destruct s as [par con ctl dis att lod]. cbn in Hd.
  unfold CoCreateInstance_contract in Hco.
  destruct att; [clear Hd | destruct (Hd eq_refl) as [-> ->]; clear Hd];
    destruct c; open_methods; branches; pointers; cbn in *; intros Ha;
    try discriminate Ha; subst; try (split; reflexivity).
  - split; [|reflexivity].
    match goal with
    | H : _ \/ _ |- _ => destruct H as [H|H]; [apply Hco, H | apply Z.eqb_eq, H]
    end.
  - split; [reflexivity|].
    match goal with
    | H : FAILED (fst (QueryInterface os ?p)) = true |- _ => apply (Hqi p H)
    end.
Qed.

Lemma clean_invariant_exec cfg session :
  Forall (fun step => conformant (snd step)) session ->
  forall s, clean_invariant s -> clean_invariant (exec cfg session s).
Proof.
  induction 1 as [|[c os] rest Hos Hrest IH]; intros s Hs; cbn; [exact Hs|].
  apply IH, clean_invariant_step; assumption.
Qed.

Lemma owned_Unattached s : Unattached s -> owned s = nothing.
Proof.
  destruct s as [par con ctl dis att lod].
  intros (_ & _ & Hc & Hp & Hd). cbn in Hc, Hp, Hd. subst. reflexivity.
Qed.

Lemma owned_step cfg os c s :
  conformant os ->
  clean_invariant s ->
  fold_left account (log_of (invoke cfg os c s)) (owned s)
    = owned (state_of (invoke cfg os c s)).
Proof.
  intros [Hco Hqi] [(Hw & Hc & Hl) Hd].
  destruct s as [par con ctl dis att lod]. cbn in Hw, Hc, Hl, Hd.
  unfold CoCreateInstance_contract in Hco. unfold owned.
  destruct att.
  - (* attached: the window and the control are there *)
    assert (Hcon : con <> 0) by (apply Hw; reflexivity).
    assert (Hctl : ctl <> 0) by (apply Hc; reflexivity).
    destruct c; open_methods; branches; try reflexivity; pointers; cbn;
      try contradiction; subst;
      rewrite ?acquire_null, ?(acquire_live con), ?(acquire_live ctl),
        ?(acquire_live dis) by assumption;
      cbn; rewrite ?Z.eqb_refl; cbn; rewrite ?Z.eqb_refl; reflexivity.
  - (* not attached: nothing is held *)
    destruct (Hd eq_refl) as [-> ->].
    assert (Hcon : con = 0).
    { destruct (Z.eq_dec con 0) as [|Hne]; [assumption|].
      apply Hw in Hne. discriminate Hne. }
    subst con.
    destruct c; open_methods; branches; try reflexivity; pointers; cbn.
    + assert (Hnull : snd (CoCreateInstance os) = 0).
      { match goal with
        | H : _ \/ _ |- _ =>
            destruct H as [H|H]; [apply Hco, H | apply Z.eqb_eq, H]
        end. }
      rewrite Hnull, acquire_live, give_back_head by assumption. reflexivity.
    + match goal with
      | H : FAILED (fst (QueryInterface os ?p)) = true |- _ => rewrite (Hqi p H)
      end.
      rewrite acquire_null, !acquire_live, !give_back_head by assumption.
      reflexivity.
Qed.

Lemma owned_trace cfg session :
  Forall (fun step => conformant (snd step)) session ->
  forall s, clean_invariant s ->
    fold_left account (trace cfg session s) (owned s) = owned (exec cfg session s).
Proof.
  induction 1 as [|[c os] rest Hos Hrest IH]; intros s Hs; cbn; [reflexivity|].
  cbn in Hos. rewrite fold_left_app, (owned_step cfg os c s Hos Hs).
  apply IH, clean_invariant_step; assumption.
Qed.

(** X1.  Over a whole session from the constructed instance, the windows
    created and not destroyed and the interface pointers received and not
    released are exactly those the members of the instance refer to: the
    container window, the control and its dispatch interface.  COM is
    required to null the out-parameter of a failing call. *)
Theorem session_holds_what_it_owns cfg session :
  Forall (fun step => conformant (snd step)) session ->
  held (trace cfg session initial) = owned (exec cfg session initial).
Proof.
  intros Hall. unfold held.
  change nothing with (owned initial).
  apply owned_trace; [exact Hall | apply clean_invariant_initial].
Qed.

Lemma working_conformant : conformant working.
Proof.
  split; [intros H | intros obj H]; cbn in H; discriminate H.
Qed.

Lemma no_viewer_conformant : conformant no_viewer.
Proof. split; [intros H | intros obj H]; reflexivity. Qed.

Lemma sample_session_conformant :
  Forall (fun step => conformant (snd step)) sample_session.
Proof.
  unfold sample_session.
  repeat (constructor;
          [first [exact working_conformant | exact no_viewer_conformant]|]).
  constructor.
Qed.

Lemma session_holds_what_it_owns_witness :
  held (trace x64 sample_session initial) = owned (exec x64 sample_session initial).
Proof.
  apply (session_holds_what_it_owns x64 sample_session).
  exact sample_session_conformant.
Defined.

Lemma Destroy_log s : log_of (Destroy s) = log_of (DestroyControl s).
Proof.
  unfold Destroy, bind, ret, log_of.
  destruct (DestroyControl s) as [[u s'] log]. cbn. apply app_nil_r.
Qed.

Lemma Destroy_leaves_Unattached s : Unattached (state_of (Destroy s)).
Proof.
  destruct s as [par con ctl dis att lod].
  open_methods; branches; pointers; subst; repeat split; reflexivity.
Qed.

(** X2.  However a session went, a destroy at its end, or the destructor
    of the instance, gives back everything: no window created during the
    session is left and no interface pointer is left unreleased. *)
Theorem nothing_left_after_destroy cfg session os :
  Forall (fun step => conformant (snd step)) session ->
  held (trace cfg (session ++ [(destroy, os)]) initial) = nothing /\
  held (trace cfg session initial ++ log_of (finalize (exec cfg session initial)))
    = nothing.
Proof.
  intros Hall.
  assert (Hinv : clean_invariant (exec cfg session initial)).
  { apply clean_invariant_exec; [exact Hall | apply clean_invariant_initial]. }
  assert (Hlast :
    fold_left account (log_of (Destroy (exec cfg session initial)))
      (held (trace cfg session initial)) = nothing).
  { unfold held. change nothing with (owned initial) at 1.
    rewrite (owned_trace cfg session Hall initial clean_invariant_initial).
    pose proof (owned_step cfg working destroy _ working_conformant Hinv) as Hstep.
    cbn [invoke] in Hstep. rewrite Hstep.
    apply owned_Unattached, Destroy_leaves_Unattached. }
  split.
  - rewrite trace_app. cbn. rewrite app_nil_r.
    unfold held at 1. rewrite fold_left_app. exact Hlast.
  - unfold finalize. rewrite <- Destroy_log.
    unfold held at 1. rewrite fold_left_app. exact Hlast.
Qed.

Lemma nothing_left_after_destroy_witness :
  held (trace x64 (short_session ++ [(destroy, working)]) initial) = nothing /\
  held (trace x64 short_session initial
          ++ log_of (finalize (exec x64 short_session initial))) = nothing.
Proof.
  apply (nothing_left_after_destroy x64 short_session working).
  unfold short_session.
  repeat (constructor; [exact working_conformant|]). constructor.
Defined.

(** ** attachToWindow *)

(** X3.  On an instance that is already attached, attachToWindow with any
    live window returns true and does nothing but ask whether the handle
    is a window: no window is created, no member changes, and the parent
    handle stays the one of the first attach even when another window is
    given. *)
Theorem attach_again_changes_nothing cfg os info s :
  m_isAttached s = true ->
  info <> [] ->
  hwnd_of_arg cfg (arg info 0) <> nullptr ->
  IsWindow os (hwnd_of_arg cfg (arg info 0)) = true ->
  AttachToWindow cfg os info s
    = (Returns true None, s, [EvIsWindow (hwnd_of_arg cfg (arg info 0)) true]).
Proof.
  intros Ha Hinfo Hnz Hlive.
  destruct info as [|v rest]; [congruence|]. cbn [arg nth] in *.
  destruct s as [par con ctl dis att lod]. cbn in Ha. subst att.
  open_methods; branches; try reflexivity; pointers; congruence.
Qed.

Lemma attach_again_changes_nothing_witness :
  AttachToWindow x64 working [JsNumber (Finite 77)] attached_66
    = (Returns true None, attached_66, [EvIsWindow 77 true]) /\
  m_hwndParent attached_66 = 66.
Proof.
  split; [|reflexivity].
  apply (attach_again_changes_nothing x64 working [JsNumber (Finite 77)] attached_66).
  - reflexivity.
  - discriminate.
  - discriminate.
  - reflexivity.
Defined.

(** X4.  On an instance that is not attached, attachToWindow returns true
    exactly when no step fails; then it raises nothing and the members
    are the handle given, the window created, the control and the
    dispatch interface received, with the attached flag set and the loaded
    flag as it was.  The system was asked, in this order, whether the
    handle is a window, to register the window class, to create the
    container under that handle, to create the control, and for the
    dispatch interface of that control. *)
Theorem attach_succeeds_exactly_without_fault cfg os info s :
  m_isAttached s = false ->
  (returned (result_of (AttachToWindow cfg os info s)) = Some true <->
   attach_fault cfg os info = false) /\
  (attach_fault cfg os info = false ->
   result_of (AttachToWindow cfg os info s) = Returns true None /\
   state_of (AttachToWindow cfg os info s) =
     {| m_hwndParent := hwnd_of_arg cfg (arg info 0);
        m_hwndContainer := CreateWindowExW os (hwnd_of_arg cfg (arg info 0));
        m_pControl := snd (CoCreateInstance os);
        m_pDispatch := snd (QueryInterface os (snd (CoCreateInstance os)));
        m_isAttached := true;
        m_isFileLoaded := m_isFileLoaded s |} /\
   log_of (AttachToWindow cfg os info s) =
     [EvIsWindow (hwnd_of_arg cfg (arg info 0)) true;
      EvRegisterClassExW;
      EvCreateWindowExW (hwnd_of_arg cfg (arg info 0))
        (CreateWindowExW os (hwnd_of_arg cfg (arg info 0)));
      EvCoCreateInstance (fst (CoCreateInstance os)) (snd (CoCreateInstance os));
      EvQueryInterface (snd (CoCreateInstance os))
        (fst (QueryInterface os (snd (CoCreateInstance os))))
        (snd (QueryInterface os (snd (CoCreateInstance os))))]).
Proof.
  intros Ha. destruct s as [par con ctl dis att lod]. cbn in Ha. subst att.
  unfold attach_fault.
  destruct info as [|v rest]; cbn [arg nth].
  - cbn. split; [split; discriminate | discriminate].
  - open_methods; branches;
      repeat match goal with
             | H : negb _ = false |- _ => apply negb_false_iff in H
             end;
      repeat match goal with
             | H : _ = _ |- _ => rewrite H
             end; cbn;
      (split; [split; intros Hx; try reflexivity; try discriminate Hx
              | intros Hx; try discriminate Hx; repeat split; reflexivity]).
    all: try (rewrite ?orb_true_r in Hx; discriminate Hx).
Qed.

Lemma attach_succeeds_exactly_without_fault_witness :
  returned (result_of (AttachToWindow x64 working [JsNumber (Finite 66)] initial))
    = Some true <->
  attach_fault x64 working [JsNumber (Finite 66)] = false.
Proof.
  apply (attach_succeeds_exactly_without_fault x64 working
           [JsNumber (Finite 66)] initial).
  reflexivity.
Defined.

(** ** What the methods leave alone *)

(** X5.  setBounds, show, hide and isLoaded never change a member of the
    instance, in any state and whatever they are given or answered; and
    isLoaded asks nothing of the system and raises nothing. *)
Theorem window_calls_and_query_keep_state cfg os info s :
  state_of (SetBounds cfg os info s) = s /\
  state_of (Show s) = s /\
  state_of (Hide s) = s /\
  IsLoaded s = (Returns (m_isFileLoaded s) None, s, []).
Proof.
  destruct s as [par con ctl dis att lod].
  repeat split; open_methods; branches; reflexivity.
Qed.

Lemma LoadFile_frame os info s :
  state_of (LoadFile os info s)
    = with_isFileLoaded (m_isFileLoaded (state_of (LoadFile os info s))) s.
Proof.
  destruct s as [par con ctl dis att lod].
  open_methods; branches; reflexivity.
Qed.

Lemma AttachToWindow_loaded_flag cfg os info s :
  m_isFileLoaded (state_of (AttachToWindow cfg os info s)) = m_isFileLoaded s.
Proof.
  destruct s as [par con ctl dis att lod].
  open_methods; branches; reflexivity.
Qed.

(** X6.  loadFile changes no member but the loaded flag, and
    attachToWindow never changes the loaded flag. *)
Theorem load_and_attach_frame cfg os info s :
  state_of (LoadFile os info s)
    = with_isFileLoaded (m_isFileLoaded (state_of (LoadFile os info s))) s /\
  m_isFileLoaded (state_of (AttachToWindow cfg os info s)) = m_isFileLoaded s.
Proof.
  split; [apply LoadFile_frame | apply AttachToWindow_loaded_flag].
Qed.

(** ** loadFile and isLoaded *)

(** X7.  On a reachable instance, whenever loadFile returns a boolean
    without raising, isLoaded called next returns that same boolean. *)
Theorem isLoaded_reports_last_load cfg os info s v :
  reachable cfg s ->
  result_of (LoadFile os info s) = Returns v None ->
  result_of (IsLoaded (state_of (LoadFile os info s))) = Returns v None.
Proof.
  intros Hreach.
  destruct (reachable_window_invariant cfg s Hreach) as (_ & _ & Hl).
  destruct s as [par con ctl dis att lod]. cbn in Hl.
  open_methods; branches; intros Hr; try discriminate Hr;
    injection Hr as <-; try reflexivity.
  destruct lod; [|reflexivity].
  destruct (Hl eq_refl) as [Ha Hd]. subst att. cbn in *.
  pointers. contradiction.
Qed.

Lemma isLoaded_reports_last_load_witness :
  result_of (IsLoaded (state_of (LoadFile viewer_rejects
                                   [JsString "C:\missing.SLDPRT"] loaded_66)))
    = Returns false None.
Proof.
  apply (isLoaded_reports_last_load x64 viewer_rejects
           [JsString "C:\missing.SLDPRT"] loaded_66 false).
  - exact reachable_loaded_66.
  - reflexivity.
Defined.

Lemma c_str_nul_free p : nul_free (c_str p) = true.
Proof.
  induction p as [|c rest IH]; cbn; [reflexivity|].
  destruct (Ascii.eqb c zero) eqn:Hc; cbn; [reflexivity|].
  rewrite Hc, IH. reflexivity.
Qed.

Lemma c_str_of_nul_free p : nul_free p = true -> c_str p = p.
Proof.
  induction p as [|c rest IH]; cbn; [reflexivity|].
  intros H. apply andb_true_iff in H. destruct H as [Hc Hrest].
  apply negb_true_iff in Hc. rewrite Hc, (IH Hrest). reflexivity.
Qed.

Lemma c_str_prefix p : exists tail, p = (c_str p ++ tail)%string.
Proof.
  induction p as [|c rest [tail IH]]; cbn.
  - exists EmptyString. reflexivity.
  - destruct (Ascii.eqb c zero).
    + exists (String c rest). reflexivity.
    + exists tail. cbn. rewrite <- IH. reflexivity.
Qed.

(** X8.  On an attached instance that holds a dispatch pointer, loadFile
    with a string looks OpenDoc up on every call, invokes it only when the
    lookup succeeded, with the path cut at its first NUL character (the
    whole path when it has none) as the only argument, and returns true,
    setting the loaded flag, exactly when both calls succeeded; otherwise
    it returns false and clears the flag.  It never raises. *)
Theorem load_looks_up_then_invokes os p rest s :
  m_isAttached s = true ->
  m_pDispatch s <> nullptr ->
  LoadFile os (JsString p :: rest) s =
    (Returns (SUCCEEDED (fst (GetIDsOfNames os (m_pDispatch s) "OpenDoc")) &&
              SUCCEEDED (Invoke os (m_pDispatch s)
                           (snd (GetIDsOfNames os (m_pDispatch s) "OpenDoc"))
                           (c_str p))) None,
     with_isFileLoaded
       (SUCCEEDED (fst (GetIDsOfNames os (m_pDispatch s) "OpenDoc")) &&
        SUCCEEDED (Invoke os (m_pDispatch s)
                     (snd (GetIDsOfNames os (m_pDispatch s) "OpenDoc"))
                     (c_str p))) s,
     EvGetIDsOfNames (m_pDispatch s) "OpenDoc"
       (fst (GetIDsOfNames os (m_pDispatch s) "OpenDoc"))
       (snd (GetIDsOfNames os (m_pDispatch s) "OpenDoc"))
     :: (if SUCCEEDED (fst (GetIDsOfNames os (m_pDispatch s) "OpenDoc"))
         then [EvInvoke (m_pDispatch s)
                 (snd (GetIDsOfNames os (m_pDispatch s) "OpenDoc"))
                 (c_str p)
                 (Invoke os (m_pDispatch s)
                    (snd (GetIDsOfNames os (m_pDispatch s) "OpenDoc"))
                    (c_str p))]
         else [])) /\
  nul_free (c_str p) = true /\
  (exists tail, p = (c_str p ++ tail)%string) /\
  (nul_free p = true -> c_str p = p).
Proof.
  intros Ha Hd.
  split; [|split; [apply c_str_nul_free
                  |split; [apply c_str_prefix | apply c_str_of_nul_free]]].
  destruct s as [par con ctl dis att lod]. cbn in Ha, Hd. subst att.
  apply Z.eqb_neq in Hd.
  unfold LoadFile, bind, ret, this, assign, sys, with_isFileLoaded. cbn.
  unfold is_null. rewrite Hd. cbn.
  destruct (SUCCEEDED (fst (GetIDsOfNames os dis "OpenDoc"))) eqn:Hid; cbn.
  - reflexivity.
  - rewrite Hid. reflexivity.
Qed.

Lemma load_looks_up_then_invokes_witness :
  result_of (LoadFile viewer_rejects [JsString "C:\missing.SLDPRT"] attached_66)
    = Returns false None.
Proof.
  destruct (load_looks_up_then_invokes viewer_rejects "C:\missing.SLDPRT" []
              attached_66) as (H & _).
  - reflexivity.
  - discriminate.
  - rewrite H. reflexivity.
Defined.

(** ** show, hide and setBounds on an attached instance *)

(** X9.  On a reachable attached instance, show and hide return true,
    raise nothing, change nothing and make exactly one [ShowWindow] call
    on the container window, with [SW_SHOW] and [SW_HIDE]. *)
Theorem show_hide_when_attached cfg s :
  reachable cfg s ->
  m_isAttached s = true ->
  Show s = (Returns true None, s, [EvShowWindow (m_hwndContainer s) SW_SHOW]) /\
  Hide s = (Returns true None, s, [EvShowWindow (m_hwndContainer s) SW_HIDE]) /\
  m_hwndContainer s <> nullptr.
Proof.
  intros Hreach Ha.
  destruct (reachable_window_invariant cfg s Hreach) as (Hw & _ & _).
  assert (Hcon : m_hwndContainer s <> nullptr) by (apply Hw, Ha).
  assert (Hnull : is_null (m_hwndContainer s) = false).
  { unfold is_null. apply Z.eqb_neq, Hcon. }
  unfold Show, Hide, bind, ret, this, sys. rewrite Hnull. cbn.
  split; [reflexivity|]. split; [reflexivity | exact Hcon].
Qed.

Lemma show_hide_when_attached_witness :
  Show attached_66 = (Returns true None, attached_66, [EvShowWindow 4096 SW_SHOW]) /\
  Hide attached_66 = (Returns true None, attached_66, [EvShowWindow 4096 SW_HIDE]) /\
  m_hwndContainer attached_66 <> nullptr.
Proof.
  apply (show_hide_when_attached x64 attached_66).
  - exact reachable_attached_66.
  - reflexivity.
Defined.

(** ** The window handle across the boundary *)

Lemma byte_of_Z_value v : Z.of_N (Byte.to_N (byte_of_Z v)) = v mod 256.
Proof.
  assert (Hr : 0 <= v mod 256 < 256) by (apply Z.mod_pos_bound; lia).
  unfold byte_of_Z.
  destruct (Byte.of_N (Z.to_N (v mod 256))) as [b|] eqn:Hb.
  - apply Byte.to_of_N in Hb. rewrite Hb. apply Z2N.id. lia.
  - apply Byte.of_N_None_iff in Hb. lia.
Qed.

Lemma le_encode_length n : forall v, List.length (le_encode n v) = n.
Proof. induction n as [|k IH]; intros v; cbn; [reflexivity | rewrite IH; reflexivity]. Qed.

Lemma le_bytes_le_encode n :
  forall v, 0 <= v < 2 ^ (8 * Z.of_nat n) -> le_bytes (le_encode n v) = v.
Proof.
  induction n as [|k IH]; intros v Hv.
  - cbn in *. lia.
  - cbn [le_encode le_bytes]. rewrite byte_of_Z_value.
    replace (8 * Z.of_nat (S k)) with (8 + 8 * Z.of_nat k) in Hv by lia.
    rewrite Z.pow_add_r in Hv by lia. change (2 ^ 8) with 256 in Hv.
    rewrite IH.
    + pose proof (Z.div_mod v 256). lia.
    + split; [apply Z.div_pos; lia|].
      apply Z.div_lt_upper_bound; lia.
Qed.

Lemma le_bytes_bound bs : 0 <= le_bytes bs < 2 ^ (8 * Z.of_nat (List.length bs)).
Proof.
  induction bs as [|b rest IH].
  - cbn. lia.
  - cbn [le_bytes List.length].
    replace (8 * Z.of_nat (S (List.length rest)))
      with (8 + 8 * Z.of_nat (List.length rest)) by lia.
    rewrite Z.pow_add_r by lia. change (2 ^ 8) with 256.
    pose proof (Byte.to_N_bounded b). lia.
Qed.

(** X10.  A handle that fits a pointer is read back unchanged from a
    buffer holding its bytes least significant first, whatever follows
    them in the buffer, and, when it is below 2^63, from the number of the
    same value: the two ways of passing a handle agree. *)
Theorem handle_read_back cfg h extra :
  0 <= h < 2 ^ (8 * Z.of_nat (sizeof_HWND cfg)) ->
  hwnd_of_arg cfg (JsBuffer (le_encode (sizeof_HWND cfg) h ++ extra)) = h /\
  (h < 2 ^ 63 -> hwnd_of_arg cfg (JsNumber (Finite h)) = h).
Proof.
  intros Hh. split.
  - unfold hwnd_of_arg, hwnd_of_buffer.
    rewrite length_app, le_encode_length.
    replace (sizeof_HWND cfg <=? sizeof_HWND cfg + List.length extra)%nat
      with true by (symmetry; apply Nat.leb_le; lia).
    rewrite firstn_app, le_encode_length, Nat.sub_diag. cbn [firstn].
    rewrite app_nil_r.
    rewrite <- (le_encode_length (sizeof_HWND cfg) h) at 1.
    rewrite firstn_all. apply le_bytes_le_encode, Hh.
  - intros H63. unfold hwnd_of_arg, hwnd_of_int64, Int64Value.
    rewrite Z.min_r, Z.max_r by lia.
    apply Z.mod_small, Hh.
Qed.

Lemma handle_read_back_witness :
  hwnd_of_arg x64 (JsBuffer (le_encode 8 4660 ++ [Byte.xff])) = 4660 /\
  (4660 < 2 ^ 63 -> hwnd_of_arg x64 (JsNumber (Finite 4660)) = 4660).
Proof.
  apply (handle_read_back x64 4660 [Byte.xff]).
  cbn. lia.
Defined.

(** X11.  The handle read from an argument always fits a pointer.  A
    buffer shorter than a pointer and a number that is not finite give the
    null handle, and attachToWindow then returns false without raising,
    without asking the system anything and without changing the
    instance. *)
Theorem short_buffer_is_null_handle cfg os v rest s :
  0 <= hwnd_of_arg cfg v < 2 ^ (8 * Z.of_nat (sizeof_HWND cfg)) /\
  (match v with
   | JsBuffer data => (List.length data < sizeof_HWND cfg)%nat
   | JsNumber n => n = NonFinite
   | _ => True
   end ->
   hwnd_of_arg cfg v = nullptr /\
   AttachToWindow cfg os (v :: rest) s = (Returns false None, s, [])).
Proof.
  assert (Hpow : 0 < 2 ^ (8 * Z.of_nat (sizeof_HWND cfg)))
    by (apply Z.pow_pos_nonneg; lia).
  split.
  - destruct v as [| | |n| |data|]; unfold hwnd_of_arg, nullptr; try lia.
    + unfold hwnd_of_int64. apply Z.mod_pos_bound, Hpow.
    + destruct (sizeof_HWND cfg <=? List.length data)%nat eqn:Hlen; [|lia].
      apply Nat.leb_le in Hlen. unfold hwnd_of_buffer.
      pose proof (le_bytes_bound (firstn (sizeof_HWND cfg) data)) as Hb.
      rewrite length_firstn, Nat.min_l in Hb by exact Hlen. exact Hb.
  - intros Hv.
    assert (Hnull : hwnd_of_arg cfg v = nullptr).
    { destruct v as [| | |n| |data|]; unfold hwnd_of_arg; try reflexivity.
      - subst n. unfold hwnd_of_int64, Int64Value. apply Z.mod_0_l. lia.
      - destruct (sizeof_HWND cfg <=? List.length data)%nat eqn:Hlen;
          [|reflexivity].
        apply Nat.leb_le in Hlen. lia. }
    split; [exact Hnull|].
    unfold AttachToWindow. cbn [List.length Nat.ltb Nat.leb arg nth].
    rewrite Hnull. reflexivity.
Qed.

Lemma short_buffer_is_null_handle_witness :
  hwnd_of_arg x64 (JsBuffer [Byte.x01; Byte.x02; Byte.x03; Byte.x04]) = nullptr /\
  AttachToWindow x64 working
    [JsBuffer [Byte.x01; Byte.x02; Byte.x03; Byte.x04]] initial
    = (Returns false None, initial, []).
Proof.
  apply (short_buffer_is_null_handle x64 working
           (JsBuffer [Byte.x01; Byte.x02; Byte.x03; Byte.x04]) [] initial).
  cbn. lia.
Defined.

(** X12.  On a reachable attached instance, setBounds given four integers
    of the 32-bit range calls [SetWindowPos] once, on the container
    window, with exactly these values as x, y, width and height, in that
    order. *)
Theorem setBounds_passes_coordinates cfg os x y w h rest s :
  reachable cfg s ->
  m_isAttached s = true ->
  Forall (fun v => - 2 ^ 31 <= v < 2 ^ 31) [x; y; w; h] ->
  log_of (SetBounds cfg os
            (JsNumber (Finite x) :: JsNumber (Finite y) ::
             JsNumber (Finite w) :: JsNumber (Finite h) :: rest) s)
    = [EvSetWindowPos (m_hwndContainer s) x y w h
         (SetWindowPos os (m_hwndContainer s) x y w h)].
Proof.
  intros Hreach Ha Hrange.
  destruct (reachable_window_invariant cfg s Hreach) as (Hw & _ & _).
  assert (Hcon : is_null (m_hwndContainer s) = false).
  { unfold is_null. apply Z.eqb_neq, Hw, Ha. }
  assert (Hid : forall v, - 2 ^ 31 <= v < 2 ^ 31 ->
                          (v + 2 ^ 31) mod 2 ^ 32 - 2 ^ 31 = v).
  { intros v Hv. rewrite Z.mod_small; lia. }
  inversion Hrange as [|? ? Hx Hr1]; subst.
  inversion Hr1 as [|? ? Hy Hr2]; subst.
  inversion Hr2 as [|? ? Hw' Hr3]; subst.
  inversion Hr3 as [|? ? Hh _]; subst.
  unfold SetBounds, bind, ret, this, sys, log_of. rewrite Hcon.
  cbn -[Z.pow Z.modulo].
  rewrite !Hid by assumption. reflexivity.
Qed.

Lemma setBounds_passes_coordinates_witness :
  log_of (SetBounds x64 working
            [JsNumber (Finite (-5)); JsNumber (Finite 20);
             JsNumber (Finite 640); JsNumber (Finite 480)] attached_66)
    = [EvSetWindowPos 4096 (-5) 20 640 480 true].
Proof.
  apply (setBounds_passes_coordinates x64 working (-5) 20 640 480 [] attached_66).
  - exact reachable_attached_66.
  - reflexivity.
  - repeat constructor; cbn; lia.
Defined.

(** ** Discovery, as its caller sees it *)

(** X13.  checkInstalled reports installed exactly when one of the four
    paths exists or the registry lookup succeeds, and the path it reports
    is null exactly when it reports not installed.  As soon as one of the
    four paths exists, the path reported is one of the four and exists:
    the registry is never preferred to the file system. *)
Theorem installed_exactly_when_found m :
  (installed (fst (CheckEDrawingsInstalled m)) = true <->
   (exists p, In p paths /\ PathFileExistsW m p = true) \/ registry_found m) /\
  (installed (fst (CheckEDrawingsInstalled m)) = false <->
   path (fst (CheckEDrawingsInstalled m)) = None) /\
  ((exists p, In p paths /\ PathFileExistsW m p = true) ->
   exists q, path (fst (CheckEDrawingsInstalled m)) = Some q /\
             In q paths /\ PathFileExistsW m q = true).
Proof.
  unfold CheckEDrawingsInstalled, registry_found. rewrite probe_find.
  destruct (find (PathFileExistsW m) paths) as [q|] eqn:Hfind.
  - apply find_some in Hfind. cbn [fst installed path].
    split; [|split].
    + split; [intros _; left; exists q; exact Hfind | reflexivity].
    + split; discriminate.
    + intros _. exists q. split; [reflexivity | exact Hfind].
  - assert (Hnone : ~ exists p, In p paths /\ PathFileExistsW m p = true).
    { intros (p & Hin & Hp).
      pose proof (find_none _ _ Hfind p Hin) as Hno. congruence. }
    destruct (fst (RegOpenKeyExW m registry_key) =? ERROR_SUCCESS) eqn:Hopen;
      [destruct (fst (RegQueryValueExW m (snd (RegOpenKeyExW m registry_key))
                        registry_value) =? ERROR_SUCCESS) eqn:Hquery|];
      cbn [fst installed path];
      (split; [|split; [split; (discriminate || reflexivity)
                       | intros Hex; contradiction]]).
    + split; [|reflexivity]. intros _. right.
      split; apply Z.eqb_eq; assumption.
    + split; [discriminate|]. intros [Hex | [_ Hq]]; [contradiction|].
      apply Z.eqb_neq in Hquery. contradiction.
    + split; [discriminate|]. intros [Hex | [Ho _]]; [contradiction|].
      apply Z.eqb_neq in Hopen. contradiction.
Qed.

Lemma installed_exactly_when_found_witness :
  exists q, path (fst (CheckEDrawingsInstalled installed_machine)) = Some q /\
            In q paths /\ PathFileExistsW installed_machine q = true.
Proof.
  destruct (installed_exactly_when_found installed_machine) as (_ & _ & H).
  apply H. exists "C:\Program Files\eDrawings\eDrawings.exe".
  split; [cbn; tauto | reflexivity].
Defined.

(** ** Opening a file in the external viewer *)

(** X14.  openInEDrawings asks the shell to open the file exactly when its
    first argument is a string, once, with the text up to its first NUL
    character, and then returns whether the code the shell answered is
    above 32, raising nothing; with a missing or non-string argument it
    raises the TypeError, returns null and asks the shell nothing. *)
Theorem open_external_reports_launch shell info :
  (IsString (arg info 0) = true ->
   exists p,
     arg info 0 = JsString p /\
     OpenInEDrawings shell info =
       ({| js_value := JsBoolean (32 <? shell "open" (c_str p));
           js_pending := None |},
        [EvShellExecuteW "open" (c_str p) (shell "open" (c_str p))]) /\
     (js_value (fst (OpenInEDrawings shell info)) = JsBoolean true <->
      32 < shell "open" (c_str p))) /\
  (IsString (arg info 0) = false ->
   OpenInEDrawings shell info =
     ({| js_value := JsNull; js_pending := Some "File path expected" |}, [])).
Proof.
  unfold OpenInEDrawings.
  destruct info as [|v rest]; cbn [List.length Nat.ltb Nat.leb arg nth orb].
  - split; [discriminate | reflexivity].
  - cbn [orb]. destruct v; cbn [IsString negb];
      (split; [intros Hs; try discriminate Hs | intros Hs; try discriminate Hs;
                                                 reflexivity]).
    exists s. split; [reflexivity|]. split; [reflexivity|].
    cbn [fst js_value]. split.
    + intros H. injection H as H. apply Z.ltb_lt, H.
    + intros H. apply Z.ltb_lt in H. rewrite H. reflexivity.
Qed.

Lemma open_external_reports_launch_witness :
  OpenInEDrawings shell_no_association [JsString "C:\part.SLDPRT"] =
    ({| js_value := JsBoolean false; js_pending := None |},
     [EvShellExecuteW "open" "C:\part.SLDPRT" 31]).
Proof.
  destruct (open_external_reports_launch shell_no_association
              [JsString "C:\part.SLDPRT"]) as (H & _).
  destruct (H eq_refl) as (p & Hp & Heq & _).
  injection Hp as <-. exact Heq.
Defined.

(** ** Construction and COM *)

Lemma S_FALSE_succeeded hr : SUCCEEDED hr || (hr =? S_FALSE) = SUCCEEDED hr.
Proof.
  unfold SUCCEEDED, S_FALSE.
  destruct (0 <=? hr) eqn:H0; [reflexivity|].
  apply Z.leb_gt in H0. cbn. apply Z.eqb_neq. lia.
Qed.

(** X15.  Over any number of constructions, [CoInitializeEx] is called by
    each one until it first succeeds and by none after that: with the
    flag already set it is never called, and starting with the flag clear
    the calls made are the answers up to the first success, the flag
    ending set exactly when one of them succeeded.  A construction yields
    the same empty instance whether COM could be initialised or not. *)
Theorem com_initialised_until_success answers :
  construct_each true answers = (true, []) /\
  construct_each false answers
    = (existsb SUCCEEDED answers, upto SUCCEEDED answers) /\
  forall g hr, fst (fst (Constructor g hr)) = initial.
Proof.
  assert (Hset : forall l, construct_each true l = (true, [])).
  { induction l as [|hr rest IH]; cbn; [reflexivity|]. rewrite IH. reflexivity. }
  split; [apply Hset|]. split.
  - induction answers as [|hr rest IH]; cbn; [reflexivity|].
    rewrite S_FALSE_succeeded.
    destruct (SUCCEEDED hr); cbn.
    + rewrite Hset. reflexivity.
    + rewrite IH. reflexivity.
  - intros g hr. unfold Constructor. destruct g; reflexivity.
Qed.

(** ** The life cycle *)

(** X16.  From a reachable state, destroy leads to Unattached; loadFile
    leaves an Unattached instance untouched and never detaches an
    attached one; attachToWindow leads from Unattached to Unattached or
    Attached (never straight to Loaded) and leaves an attached instance
    untouched; setBounds, show, hide and isLoaded leave every state as it
    is. *)
Theorem lifecycle_transitions cfg os c s :
  reachable cfg s ->
  match c with
  | destroy =>
      phase_of (state_of (invoke cfg os c s)) = PhaseUnattached
  | loadFile _ =>
      (phase_of s = PhaseUnattached -> state_of (invoke cfg os c s) = s) /\
      (phase_of s <> PhaseUnattached ->
       phase_of (state_of (invoke cfg os c s)) <> PhaseUnattached)
  | attachToWindow _ =>
      (phase_of s = PhaseUnattached ->
       phase_of (state_of (invoke cfg os c s)) = PhaseUnattached \/
       phase_of (state_of (invoke cfg os c s)) = PhaseAttached) /\
      (phase_of s <> PhaseUnattached -> state_of (invoke cfg os c s) = s)
  | _ => state_of (invoke cfg os c s) = s
  end.
Proof.
  intros Hreach.
  destruct (reachable_window_invariant cfg s Hreach) as (_ & _ & Hl).
  destruct s as [par con ctl dis att lod]. cbn in Hl. unfold phase_of.
  destruct c; cbn [invoke].
  - (* attachToWindow *)
    destruct att; cbn [m_isAttached m_isFileLoaded].
    + split; [destruct lod; discriminate|]. intros _.
      open_methods; branches; reflexivity.
    + assert (Hlod : lod = false).
      { destruct lod; [|reflexivity]. destruct (Hl eq_refl). discriminate. }
      subst lod. split; [|congruence]. intros _.
      rewrite AttachToWindow_loaded_flag. cbn [m_isFileLoaded].
      destruct (m_isAttached (state_of (AttachToWindow cfg os info _)));
        [right | left]; reflexivity.
  - (* loadFile *)
    destruct att; cbn [m_isAttached m_isFileLoaded].
    + split; [destruct lod; discriminate|]. intros _.
      rewrite LoadFile_frame. cbn [with_isFileLoaded m_isAttached m_isFileLoaded].
      match goal with |- context [if ?b then _ else _] => destruct b end;
        discriminate.
    + split; [|congruence]. intros _. reflexivity.
  - open_methods; branches; reflexivity.
  - open_methods; branches; reflexivity.
  - open_methods; branches; reflexivity.
  - (* destroy *)
    match goal with
    | |- context [Destroy ?st] =>
        destruct (Destroy_leaves_Unattached st) as (Hdet & _); rewrite Hdet
    end.
    reflexivity.
  - reflexivity.
Qed.

Lemma lifecycle_transitions_witness :
  phase_of (state_of (invoke x64 working destroy loaded_66)) = PhaseUnattached.
Proof.
  apply (lifecycle_transitions x64 working destroy loaded_66).
  exact reachable_loaded_66.
Defined.

(** X17.  With COM keeping its promises, the state after any session is
    one of three kinds: Unattached, with no window and no pointer;
    Attached, with a container window and a control; or Attached and
    Loaded, with in addition a dispatch pointer. *)
Theorem reachable_states_are_of_three_kinds cfg session :
  Forall (fun step => conformant (snd step)) session ->
  match phase_of (exec cfg session initial) with
  | PhaseUnattached => Unattached (exec cfg session initial)
  | PhaseAttached =>
      Attached (exec cfg session initial) /\
      m_hwndContainer (exec cfg session initial) <> nullptr /\
      m_pControl (exec cfg session initial) <> nullptr
  | PhaseLoaded =>
      AttachedLoaded (exec cfg session initial) /\
      m_hwndContainer (exec cfg session initial) <> nullptr /\
      m_pControl (exec cfg session initial) <> nullptr /\
      m_pDispatch (exec cfg session initial) <> nullptr
  end.
Proof.
  intros Hall.
  destruct (clean_invariant_exec cfg session Hall initial clean_invariant_initial)
    as [(Hw & Hc & Hl) Hd].
  unfold phase_of, Unattached, Attached, AttachedLoaded.
  destruct (m_isAttached (exec cfg session initial)) eqn:Ha.
  - destruct (m_isFileLoaded (exec cfg session initial)) eqn:Hlod.
    + destruct (Hl eq_refl) as [_ Hdis].
      repeat split; auto; apply Hw; reflexivity.
    + repeat split; auto; apply Hw; reflexivity.
  - destruct (Hd eq_refl) as [Hctl Hdis].
    repeat split; auto.
    + destruct (m_isFileLoaded (exec cfg session initial)); [|reflexivity].
      destruct (Hl eq_refl). discriminate.
    + destruct (Z.eq_dec (m_hwndContainer (exec cfg session initial)) nullptr)
        as [|Hne]; [assumption|].
      apply Hw in Hne. discriminate Hne.
Qed.

Lemma reachable_states_are_of_three_kinds_witness :
  Unattached (exec x64 sample_session initial).
Proof.
  exact (reachable_states_are_of_three_kinds x64 sample_session
           sample_session_conformant).
Defined.

(** ** What a set loaded flag tells *)

Lemma LoadFile_sets_flag os info s :
  window_invariant s ->
  m_isFileLoaded (state_of (LoadFile os info s)) = true ->
  result_of (LoadFile os info s) = Returns true None \/
  (IsString (arg info 0) = false /\ m_isFileLoaded s = true).
Proof.
  intros (_ & _ & Hl).
  destruct s as [par con ctl dis att lod]. cbn in Hl.
  open_methods; branches; intros Hlod; cbn in Hlod.
  - (* not attached, or no dispatch pointer *)
    subst lod. destruct (Hl eq_refl) as [-> Hdis]. pointers.
    match goal with
    | H : _ \/ _ |- _ =>
        destruct H as [H|H]; [discriminate H | apply Z.eqb_eq in H; contradiction]
    end.
  - (* rejected for its argument *)
    right. split; [|exact Hlod].
    pointers.
    match goal with
    | H : _ \/ _ |- _ =>
        destruct H as [H|H];
        [destruct info; [reflexivity | discriminate H] | apply negb_true_iff, H]
    end.
  - left. rewrite Hlod. reflexivity.
  - left. rewrite Hlod. reflexivity.
Qed.

Lemma other_calls_keep_loaded_flag cfg os c s :
  match c with loadFile _ | destroy => False | _ => True end ->
  m_isFileLoaded (state_of (invoke cfg os c s)) = m_isFileLoaded s.
Proof.
  destruct s as [par con ctl dis att lod].
  destruct c; intros Hc; try contradiction;
    open_methods; branches; reflexivity.
Qed.

Lemma Destroy_clears_loaded_flag s : m_isFileLoaded (state_of (Destroy s)) = false.
Proof. apply (Destroy_leaves_Unattached s). Qed.

(** X18.  If the loaded flag is set after a session, then some loadFile of
    the session returned true, and after it the instance was not
    destroyed and every further loadFile was one rejected for its
    argument: a set flag always goes back to a successful load that
    nothing has undone since. *)
Theorem loaded_flag_goes_back_to_a_load cfg session :
  m_isFileLoaded (exec cfg session initial) = true ->
  exists before info os after,
    session = before ++ (loadFile info, os) :: after /\
    result_of (LoadFile os info (exec cfg before initial)) = Returns true None /\
    forallb (fun step => keeps_loaded_flag (fst step)) after = true.
Proof.
  induction session as [|[c os] init IH] using rev_ind; intros Hlod.
  - discriminate Hlod.
  - rewrite exec_app in Hlod. cbn [exec] in Hlod.
    assert (Hinv : window_invariant (exec cfg init initial))
      by apply window_invariant_exec, window_invariant_initial.
    assert (Hkeep :
      keeps_loaded_flag c = true ->
      m_isFileLoaded (exec cfg init initial) = true ->
      exists before info os' after,
        init ++ [(c, os)] = before ++ (loadFile info, os') :: after /\
        result_of (LoadFile os' info (exec cfg before initial)) = Returns true None /\
        forallb (fun step => keeps_loaded_flag (fst step)) after = true).
    { intros Hc Hbefore.
      destruct (IH Hbefore) as (before & info & os' & after & Heq & Hres & Hafter).
      exists before, info, os', (after ++ [(c, os)]).
      split; [rewrite Heq, <- app_assoc; reflexivity|].
      split; [exact Hres|].
      rewrite forallb_app, Hafter. cbn. rewrite Hc. reflexivity. }
    destruct c as [info|info|info| | | |].
    + apply Hkeep; [reflexivity|].
      rewrite <- Hlod. symmetry.
      apply (other_calls_keep_loaded_flag cfg os (attachToWindow info)). exact I.
    + cbn [invoke] in Hlod.
      destruct (LoadFile_sets_flag os info _ Hinv Hlod) as [Htrue | [Hbad Hbefore]].
      * exists init, info, os, []. repeat split; auto.
      * apply Hkeep; [cbn; rewrite Hbad; reflexivity | exact Hbefore].
    + apply Hkeep; [reflexivity|].
      rewrite <- Hlod. symmetry.
      apply (other_calls_keep_loaded_flag cfg os (setBounds info)). exact I.
    + apply Hkeep; [reflexivity|].
      rewrite <- Hlod. symmetry.
      apply (other_calls_keep_loaded_flag cfg os show). exact I.
    + apply Hkeep; [reflexivity|].
      rewrite <- Hlod. symmetry.
      apply (other_calls_keep_loaded_flag cfg os hide). exact I.
    + cbn [invoke] in Hlod. rewrite Destroy_clears_loaded_flag in Hlod.
      discriminate Hlod.
    + apply Hkeep; [reflexivity|].
      rewrite <- Hlod. symmetry.
      apply (other_calls_keep_loaded_flag cfg os isLoaded). exact I.
Qed.

Lemma loaded_flag_goes_back_to_a_load_witness :
  exists before info os after,
    short_session = before ++ (loadFile info, os) :: after /\
    result_of (LoadFile os info (exec x64 before initial)) = Returns true None /\
    forallb (fun step => keeps_loaded_flag (fst step)) after = true.
Proof.
  apply (loaded_flag_goes_back_to_a_load x64 short_session).
  reflexivity.
Defined.

(** ** destroy on an attached instance *)

(** X19.  On a reachable attached instance, destroy releases the dispatch
    pointer first (when there is one), then the control, then destroys the
    container window, each exactly once and nothing else. *)
Theorem destroy_releases_in_order cfg s :
  reachable cfg s ->
  m_isAttached s = true ->
  log_of (Destroy s) =
    (if is_null (m_pDispatch s) then [] else [EvRelease (m_pDispatch s)]) ++
    [EvRelease (m_pControl s); EvDestroyWindow (m_hwndContainer s)].
Proof.
  intros Hreach Ha.
  destruct (reachable_window_invariant cfg s Hreach) as (Hw & Hc & _).
  assert (Hcon : is_null (m_hwndContainer s) = false).
  { unfold is_null. apply Z.eqb_neq, Hw, Ha. }
  assert (Hctl : is_null (m_pControl s) = false).
  { unfold is_null. apply Z.eqb_neq, Hc, Ha. }
  destruct s as [par con ctl dis att lod]. cbn in Hcon, Hctl |- *.
  unfold Destroy, DestroyControl, bind, ret, this, assign, sys, log_of. cbn.
  rewrite Hcon, Hctl. destruct (is_null dis); reflexivity.
Qed.

Lemma destroy_releases_in_order_witness :
  log_of (Destroy loaded_66)
    = [EvRelease 8200; EvRelease 8192; EvDestroyWindow 4096].
Proof.
  apply (destroy_releases_in_order x64 loaded_66).
  - exact reachable_loaded_66.
  - reflexivity.
Defined.
